(** * PDF accessibility toolkit: heading heuristics, document classification
      and metadata synthesis

    A shallow embedding of the classification core of
    [scripts/add_heading_tags.py] and [scripts/analyze_and_tag_pdf.py].

    Python [str] values are sequences of Unicode code points.  The character
    database of the interpreter (the predicates behind [str.isupper],
    [str.isdigit], [str.split], [str.lower], and the classes used by [re])
    is an interface, [UnicodeData]: every general theorem holds for an
    arbitrary database, and the scenarios are evaluated on [Latin1], whose
    tables are the interpreter's on U+0000..U+00FF. *)

From Stdlib Require Import String Ascii.
From Stdlib Require Import List NArith ZArith Bool Lia PeanoNat.
From Stdlib Require Import DecimalFacts DecimalPos DecimalZ.
From Stdlib Require Import Sorted.
From Stdlib Require Import Floats.PrimFloat Numbers.Cyclic.Int63.Uint63.
Import ListNotations.

Set Implicit Arguments.

(** ** Python strings *)

Module Py.

(** A code point, and a [str]: [len] is [length], indexing is by code point. *)
Definition cp := N.
Definition str := list cp.

(** Source literals are written as UTF-8 text and decoded to code points. *)
Fixpoint utf8_decode (bs : list N) : str :=
  match bs with
  | [] => []
  | b0 :: r0 =>
    if (b0 <? 128)%N then b0 :: utf8_decode r0
    else
      match r0 with
      | [] => []
      | b1 :: r1 =>
        if (b0 <? 224)%N then ((b0 - 192) * 64 + (b1 - 128))%N :: utf8_decode r1
        else
          match r1 with
          | [] => []
          | b2 :: r2 =>
            if (b0 <? 240)%N
            then ((b0 - 224) * 4096 + (b1 - 128) * 64 + (b2 - 128))%N
                   :: utf8_decode r2
            else
              match r2 with
              | [] => []
              | b3 :: r3 =>
                ((b0 - 240) * 262144 + (b1 - 128) * 4096
                 + (b2 - 128) * 64 + (b3 - 128))%N :: utf8_decode r3
              end
          end
      end
  end.

Definition u (s : string) : str :=
  utf8_decode (map N_of_ascii (list_ascii_of_string s)).

(** The Unicode character database, as CPython exposes it. *)
Class UnicodeData := {
  cp_isupper : cp -> bool;    (* Py_UNICODE_ISUPPER *)
  cp_islower : cp -> bool;    (* Py_UNICODE_ISLOWER *)
  cp_istitle : cp -> bool;    (* Py_UNICODE_ISTITLE *)
  cp_isdigit : cp -> bool;    (* Py_UNICODE_ISDIGIT *)
  cp_isdecimal : cp -> bool;  (* Py_UNICODE_ISDECIMAL, the class of \d *)
  cp_isspace : cp -> bool;    (* Py_UNICODE_ISSPACE, the class of \s *)
  cp_isalnum : cp -> bool;    (* Py_UNICODE_ISALNUM; \w adds "_" *)
  str_lower : str -> str;     (* str.lower() *)
  str_title : str -> str;     (* str.title() *)
  sre_ci_eq : cp -> cp -> bool
    (* a pattern literal against a text character under re.IGNORECASE *)
}.

Definition eqb (a b : str) : bool :=
  if list_eq_dec N.eq_dec a b then true else false.

Definition nonempty (s : str) : bool :=
  match s with [] => false | _ :: _ => true end.

Fixpoint startswith (s prefix : str) {struct prefix} : bool :=
  match prefix with
  | [] => true
  | p :: prefix' =>
    match s with
    | [] => false
    | c :: s' => (p =? c)%N && startswith s' prefix'
    end
  end.

Definition endswith (s suffix : str) : bool :=
  startswith (rev s) (rev suffix).

(** [needle in hay] *)
Fixpoint contains (needle hay : str) : bool :=
  startswith hay needle
  || match hay with
     | [] => false
     | _ :: hay' => contains needle hay'
     end.

(** [s[i:j]] for [0 <= i <= j] *)
Definition slice (s : str) (i j : nat) : str := firstn (j - i) (skipn i s).

(** [s.replace(old, new)] for one-character [old] and [new] *)
Definition replace (s : str) (old new : cp) : str :=
  map (fun c => if (c =? old)%N then new else c) s.

(** [sep.join(parts)] *)
Fixpoint join (sep : str) (parts : list str) : str :=
  match parts with
  | [] => []
  | [p] => p
  | p :: rest => p ++ sep ++ join sep rest
  end.

(** [s.split(sep)] for a one-character [sep]; [cur] holds, reversed, the
    characters of the field being read. *)
Fixpoint split_on (sep : cp) (cur : str) (s : str) : list str :=
  match s with
  | [] => [rev cur]
  | c :: s' =>
    if (c =? sep)%N then rev cur :: split_on sep [] s'
    else split_on sep (c :: cur) s'
  end.

Definition split_sep (s : str) (sep : cp) : list str := split_on sep [] s.

Section Methods.
Context {db : UnicodeData}.

(** [s.isupper()]: no lower- or title-case character and at least one
    upper-case one; one-character strings take the shortcut of
    [unicode_isupper_impl]. *)
Fixpoint isupper_scan (cased : bool) (s : str) : bool :=
  match s with
  | [] => cased
  | c :: s' =>
    if cp_islower c || cp_istitle c then false
    else isupper_scan (cased || cp_isupper c) s'
  end.

Definition isupper (s : str) : bool :=
  match s with
  | [] => false
  | [c] => cp_isupper c
  | _ => isupper_scan false s
  end.

(** [s.isdigit()] *)
Definition isdigit (s : str) : bool :=
  nonempty s && forallb cp_isdigit s.

Fixpoint lstrip (s : str) : str :=
  match s with
  | [] => []
  | c :: s' => if cp_isspace c then lstrip s' else s
  end.

Definition rstrip (s : str) : str := rev (lstrip (rev s)).

(** [s.strip()] *)
Definition strip (s : str) : str := rstrip (lstrip s).

(** [s.split()]: maximal runs of non-whitespace characters. *)
Fixpoint split_ws (cur : str) (s : str) : list str :=
  match s with
  | [] => if nonempty cur then [rev cur] else []
  | c :: s' =>
    if cp_isspace c
    then (if nonempty cur then rev cur :: split_ws [] s' else split_ws [] s')
    else split_ws (c :: cur) s'
  end.

Definition split (s : str) : list str := split_ws [] s.

Definition lower (s : str) : str := str_lower s.
Definition title (s : str) : str := str_title s.
End Methods.

(** [a / b > t] on Python ints [a], [b] and a float [t]: true division
    rounds the quotient to binary64; both operands are converted exactly
    below 2^53. *)
Definition float_of_nat (n : nat) : float :=
  PrimFloat.of_uint63 (Uint63.of_Z (Z.of_nat n)).

Definition truediv (a b : nat) : float :=
  PrimFloat.div (float_of_nat a) (float_of_nat b).

(** *** The database on U+0000..U+00FF *)

Definition in_range (lo hi : N) (c : cp) : bool := ((lo <=? c) && (c <=? hi))%N.

Definition l1_isupper (c : cp) : bool :=
  in_range 65 90 c || in_range 192 214 c || in_range 216 222 c.

Definition l1_islower (c : cp) : bool :=
  in_range 97 122 c || (c =? 170)%N || (c =? 181)%N || (c =? 186)%N
  || in_range 223 246 c || in_range 248 255 c.

Definition l1_isdecimal (c : cp) : bool := in_range 48 57 c.

Definition l1_isdigit (c : cp) : bool :=
  in_range 48 57 c || in_range 178 179 c || (c =? 185)%N.

Definition l1_isspace (c : cp) : bool :=
  in_range 9 13 c || in_range 28 32 c || (c =? 133)%N || (c =? 160)%N.

Definition l1_isalnum (c : cp) : bool :=
  l1_isupper c || l1_islower c || l1_isdigit c || in_range 188 190 c.

Definition l1_tolower (c : cp) : cp :=
  if l1_isupper c then (c + 32)%N else c.

(** Title-case mapping: U+00DF gives "Ss"; U+00B5 and U+00FF map outside
    the block. *)
Definition l1_totitle (c : cp) : str :=
  if in_range 97 122 c || in_range 224 246 c || in_range 248 254 c
  then [(c - 32)%N]
  else if (c =? 223)%N then [83; 115]%N
  else if (c =? 181)%N then [924]%N
  else if (c =? 255)%N then [376]%N
  else [c].

Fixpoint l1_title (prev_cased : bool) (s : str) : str :=
  match s with
  | [] => []
  | c :: s' =>
    (if prev_cased then [l1_tolower c] else l1_totitle c)
      ++ l1_title (l1_isupper c || l1_islower c) s'
  end.

(** Code points above U+00FF are outside the tables: caseless, not digits,
    not white space, which is what the interpreter says of the bullet
    U+2022, the only such character of the sources' literals. *)
#[export] Instance Latin1 : UnicodeData := {|
  cp_isupper := l1_isupper;
  cp_islower := l1_islower;
  cp_istitle := fun _ => false;
  cp_isdigit := l1_isdigit;
  cp_isdecimal := l1_isdecimal;
  cp_isspace := l1_isspace;
  cp_isalnum := l1_isalnum;
  str_lower := map l1_tolower;
  str_title := l1_title false;
  sre_ci_eq := fun a b => (l1_tolower a =? l1_tolower b)%N
|}.

End Py.

(** ** The fragment of [re] the scripts' patterns use *)

Module Re.
Import Py.

(** A pattern is a sequence of items; these are the constructs occurring in
    [DOC_TYPE_PATTERNS] and in the tag patterns of [generate_content_tags]. *)
Inductive item :=
| WordB                    (* \b *)
| Chr (c : cp)             (* a literal character *)
| SpacePlus                (* \s+ *)
| DigitPlus                (* \d+ *)
| Group (alts : list str)  (* (a|b|...) with literal alternatives *).

Definition pattern := list item.

Section Matcher.
Context {db : UnicodeData}.

(** [ignorecase] is the flag re.IGNORECASE. *)
Variable ignorecase : bool.

Definition chr_eq (p c : cp) : bool :=
  if ignorecase then sre_ci_eq p c else (p =? c)%N.

(** \w *)
Definition is_word (c : cp) : bool := cp_isalnum c || (c =? 95)%N.

Definition word_before (prev : option cp) : bool :=
  match prev with Some c => is_word c | None => false end.

Definition word_after (s : str) : bool :=
  match s with c :: _ => is_word c | [] => false end.

(** \b holds where exactly one side is a word character. *)
Definition at_boundary (prev : option cp) (s : str) : bool :=
  xorb (word_before prev) (word_after s).

(** The matcher threads the character before the cursor and the text
    after it, and backtracks through failed continuations. *)
Definition cont (A : Type) := option cp -> str -> option A.

Fixpoint lit_match (l : str) (prev : option cp) (s : str)
  : option (option cp * str) :=
  match l with
  | [] => Some (prev, s)
  | p :: l' =>
    match s with
    | [] => None
    | c :: s' => if chr_eq p c then lit_match l' (Some c) s' else None
    end
  end.

(** Greedy [cls+]: the longest run first, then shorter ones. *)
Fixpoint plus_class {A} (cls : cp -> bool) (k : cont A)
         (prev : option cp) (s : str) : option A :=
  match s with
  | [] => None
  | c :: s' =>
    if cls c then
      match plus_class cls k (Some c) s' with
      | Some r => Some r
      | None => k (Some c) s'
      end
    else None
  end.

(** Alternatives are tried from left to right. *)
Fixpoint first_alt {A} (alts : list str) (k : cont A)
         (prev : option cp) (s : str) : option A :=
  match alts with
  | [] => None
  | a :: alts' =>
    match
      match lit_match a prev s with
      | Some (prev', s') => k prev' s'
      | None => None
      end
    with
    | Some r => Some r
    | None => first_alt alts' k prev s
    end
  end.

Fixpoint match_items {A} (p : pattern) (k : cont A)
         (prev : option cp) (s : str) : option A :=
  match p with
  | [] => k prev s
  | WordB :: p' =>
    if at_boundary prev s then match_items p' k prev s else None
  | Chr c :: p' =>
    match s with
    | [] => None
    | x :: s' => if chr_eq c x then match_items p' k (Some x) s' else None
    end
  | SpacePlus :: p' => plus_class cp_isspace (match_items p' k) prev s
  | DigitPlus :: p' => plus_class cp_isdecimal (match_items p' k) prev s
  | Group alts :: p' => first_alt alts (match_items p' k) prev s
  end.

(** [re.search]: every start position from the left, the end included. *)
Fixpoint search_from (p : pattern) (prev : option cp) (s : str) : bool :=
  match match_items p (fun _ _ => Some tt) prev s with
  | Some _ => true
  | None =>
    match s with
    | [] => false
    | c :: s' => search_from p (Some c) s'
    end
  end.

Definition search (p : pattern) (s : str) : bool := search_from p None s.

(** One attempt of [findall] at the cursor: the length of the match.  After
    an empty match the scanner retries the same position, where the match
    must then be non-empty ([must_advance]). *)
Definition attempt (p : pattern) (must_advance : bool)
           (prev : option cp) (s : str) : option nat :=
  match_items p
    (fun _ r =>
       let n := length s - length r in
       if must_advance && (n =? 0) then None else Some n)
    prev s.

(** [len(re.findall(p, s))]: non-overlapping matches from the left;
    [skip] counts the characters still inside the last match. *)
Fixpoint count_from (p : pattern) (skip : nat) (prev : option cp) (s : str)
  : nat :=
  let next (n : nat) :=
    match s with
    | [] => 0
    | c :: s' => count_from p n (Some c) s'
    end in
  match skip with
  | S n => next n
  | 0 =>
    match attempt p false prev s with
    | None => next 0
    | Some (S n) => 1 + next n
    | Some 0 =>
      1 + match attempt p true prev s with
          | Some (S n) => 1 + next n
          | _ => next 0
          end
    end
  end.

Definition findall_count (p : pattern) (s : str) : nat :=
  count_from p 0 None s.
End Matcher.

(** Reading a pattern from its source text: [\b], [\s+], [\d+], a
    parenthesised alternation of literals, and literal characters.  Inside
    parentheses [grp] holds the alternatives read so far and the one being
    read, both reversed. *)
Fixpoint compile_aux (grp : option (list str * str)) (cs : str) : pattern :=
  match grp with
  | Some (alts, cur) =>
    match cs with
    | [] => []
    | c :: r =>
      if (c =? 41)%N then Group (rev (rev cur :: alts)) :: compile_aux None r
      else if (c =? 124)%N then compile_aux (Some (rev cur :: alts, [])) r
      else compile_aux (Some (alts, c :: cur)) r
    end
  | None =>
    match cs with
    | [] => []
    | c :: r =>
      if (c =? 40)%N then compile_aux (Some ([], [])) r
      else if (c =? 92)%N then
        match r with
        | e :: r1 =>
          if (e =? 98)%N then WordB :: compile_aux None r1
          else
            match r1 with
            | q :: r2 =>
              if ((e =? 115) && (q =? 43))%N then SpacePlus :: compile_aux None r2
              else if ((e =? 100) && (q =? 43))%N
                   then DigitPlus :: compile_aux None r2
              else Chr c :: compile_aux None r
            | [] => Chr c :: compile_aux None r
            end
        | [] => [Chr c]
        end
      else Chr c :: compile_aux None r
    end
  end.

Definition compile (source : string) : pattern := compile_aux None (u source).

End Re.

(** ** The [json] module, on the values a headings file holds *)

Module Json.
Import Py.

(** The Python objects of a headings file: [int], [str], [list], and [dict]
    with string keys (its items in insertion order, the keys distinct).
    Floats, booleans and [None] are outside this fragment: the encoder is
    never given one, and the decoder reports text that needs one as an
    error.  Integers are unbounded. *)
Unset Elimination Schemes.
Inductive value :=
| Int (n : Z)
| Str (s : str)
| Arr (items : list value)
| Obj (members : list (str * value)).
Set Elimination Schemes.

(** *** Encoding: [json.dumps(obj, indent=2, ensure_ascii=False)] *)

Definition hex_digit (n : N) : cp :=
  if (n <? 10)%N then (48 + n)%N else (87 + n)%N.

(** [ESCAPE_DCT]: the quote, the backslash, the named control characters,
    and \u00XX for the other characters below U+0020. *)
Definition escape_char (c : cp) : str :=
  if (c =? 34)%N then [92; 34]%N
  else if (c =? 92)%N then [92; 92]%N
  else if (c =? 10)%N then [92; 110]%N
  else if (c =? 13)%N then [92; 114]%N
  else if (c =? 9)%N then [92; 116]%N
  else if (c =? 8)%N then [92; 98]%N
  else if (c =? 12)%N then [92; 102]%N
  else if (c <? 32)%N
       then [92; 117; 48; 48; hex_digit (c / 16); hex_digit (c mod 16)]%N
  else [c].

Definition encode_string (s : str) : str :=
  34%N :: flat_map escape_char s ++ [34%N].

Fixpoint digits (d : Decimal.uint) : str :=
  match d with
  | Decimal.Nil => []
  | Decimal.D0 d' => 48%N :: digits d'
  | Decimal.D1 d' => 49%N :: digits d'
  | Decimal.D2 d' => 50%N :: digits d'
  | Decimal.D3 d' => 51%N :: digits d'
  | Decimal.D4 d' => 52%N :: digits d'
  | Decimal.D5 d' => 53%N :: digits d'
  | Decimal.D6 d' => 54%N :: digits d'
  | Decimal.D7 d' => 55%N :: digits d'
  | Decimal.D8 d' => 56%N :: digits d'
  | Decimal.D9 d' => 57%N :: digits d'
  end.

(** [int.__repr__] *)
Definition encode_int (n : Z) : str :=
  match Z.to_int n with
  | Decimal.Pos d => digits d
  | Decimal.Neg d => 45%N :: digits d
  end.

(** A line break and the indentation of a nesting level *)
Definition newline_indent (level : nat) : str :=
  10%N :: repeat 32%N (2 * level).

Definition item_separator (level : nat) : str :=
  44%N :: newline_indent level.

Fixpoint encode (level : nat) (v : value) : str :=
  match v with
  | Int n => encode_int n
  | Str s => encode_string s
  | Arr [] => u "[]"
  | Arr items =>
    u "[" ++ newline_indent (S level)
      ++ join (item_separator (S level)) (map (encode (S level)) items)
      ++ newline_indent level ++ u "]"
  | Obj [] => u "{}"
  | Obj members =>
    u "{" ++ newline_indent (S level)
      ++ join (item_separator (S level))
              (map (fun kv => encode_string (fst kv) ++ u ": "
                              ++ encode (S level) (snd kv)) members)
      ++ newline_indent level ++ u "}"
  end.

Definition dumps (obj : value) : str := encode 0 obj.

(** *** Decoding: [json.loads] *)

Definition is_ws (c : cp) : bool :=
  ((c =? 32) || (c =? 9) || (c =? 10) || (c =? 13))%N.

Fixpoint skip_ws (s : str) : str :=
  match s with
  | [] => []
  | c :: r => if is_ws c then skip_ws r else s
  end.

Definition hex_value (c : cp) : option N :=
  if in_range 48 57 c then Some (c - 48)%N
  else if in_range 97 102 c then Some (c - 87)%N
  else if in_range 65 70 c then Some (c - 55)%N
  else None.

Definition hex4 (a b c d : cp) : option N :=
  match hex_value a, hex_value b, hex_value c, hex_value d with
  | Some x, Some y, Some z, Some w =>
    Some (((x * 16 + y) * 16 + z) * 16 + w)%N
  | _, _, _, _ => None
  end.

(** [BACKSLASH] of json.decoder *)
Definition unescape (e : cp) : option cp :=
  if (e =? 34)%N then Some 34%N
  else if (e =? 92)%N then Some 92%N
  else if (e =? 47)%N then Some 47%N
  else if (e =? 98)%N then Some 8%N
  else if (e =? 102)%N then Some 12%N
  else if (e =? 110)%N then Some 10%N
  else if (e =? 114)%N then Some 13%N
  else if (e =? 116)%N then Some 9%N
  else None.

Definition push (c : cp) (r : option (str * str)) : option (str * str) :=
  match r with
  | Some (cs, rest) => Some (c :: cs, rest)
  | None => None
  end.

(** [scanstring], strict, from after the opening quote: the content and the
    text after the closing quote.  An escaped high surrogate followed by an
    escaped low surrogate is one character. *)
Fixpoint scan_string (s : str) : option (str * str) :=
  match s with
  | [] => None
  | c :: r =>
    if (c =? 34)%N then Some ([], r)
    else if (c =? 92)%N then
      match r with
      | [] => None
      | e :: r1 =>
        if (e =? 117)%N then
          match r1 with
          | h1 :: h2 :: h3 :: h4 :: r2 =>
            match hex4 h1 h2 h3 h4 with
            | None => None
            | Some hi =>
              if in_range 55296 56319 hi then
                match r2 with
                | b :: e2 :: l1 :: l2 :: l3 :: l4 :: r3 =>
                  match
                    (if ((b =? 92) && (e2 =? 117))%N then hex4 l1 l2 l3 l4
                     else None)
                  with
                  | Some lo =>
                    if in_range 56320 57343 lo
                    then push (65536 + (hi - 55296) * 1024 + (lo - 56320))%N
                              (scan_string r3)
                    else push hi (scan_string r2)
                  | None => push hi (scan_string r2)
                  end
                | _ => push hi (scan_string r2)
                end
              else push hi (scan_string r2)
            end
          | _ => None
          end
        else
          match unescape e with
          | Some x => push x (scan_string r1)
          | None => None
          end
      end
    else if (c <? 32)%N then None
    else push c (scan_string r)
  end.

Definition digit_of (c : cp) : option (Decimal.uint -> Decimal.uint) :=
  if (c =? 48)%N then Some Decimal.D0
  else if (c =? 49)%N then Some Decimal.D1
  else if (c =? 50)%N then Some Decimal.D2
  else if (c =? 51)%N then Some Decimal.D3
  else if (c =? 52)%N then Some Decimal.D4
  else if (c =? 53)%N then Some Decimal.D5
  else if (c =? 54)%N then Some Decimal.D6
  else if (c =? 55)%N then Some Decimal.D7
  else if (c =? 56)%N then Some Decimal.D8
  else if (c =? 57)%N then Some Decimal.D9
  else None.

Fixpoint take_digits (s : str) : Decimal.uint * str :=
  match s with
  | [] => (Decimal.Nil, [])
  | c :: r =>
    match digit_of c with
    | Some mk => let (d, rest) := take_digits r in (mk d, rest)
    | None => (Decimal.Nil, s)
    end
  end.

(** A fraction or an exponent after the integer part *)
Definition starts_float (rest : str) : bool :=
  match rest with
  | [] => false
  | c :: _ => ((c =? 46) || (c =? 101) || (c =? 69))%N
  end.

(** [NUMBER_RE]: an optional sign, then 0 or a digit run without leading
    zero.  A number with a fraction or an exponent is a float. *)
Definition scan_int (s : str) : option (Z * str) :=
  let (negative, body) :=
    match s with
    | [] => (false, s)
    | c :: r => if (c =? 45)%N then (true, r) else (false, s)
    end in
  match body with
  | [] => None
  | c :: r =>
    let (d, rest) :=
      if (c =? 48)%N then (Decimal.D0 Decimal.Nil, r) else take_digits body in
    match d with
    | Decimal.Nil => None
    | _ =>
      if starts_float rest then None
      else Some (Z.of_int (if negative then Decimal.Neg d else Decimal.Pos d),
                 rest)
    end
  end.

(** [d[k] = v] *)
Fixpoint dict_set (k : str) (v : value) (d : list (str * value))
  : list (str * value) :=
  match d with
  | [] => [(k, v)]
  | (k', v') :: d' =>
    if eqb k' k then (k', v) :: d' else (k', v') :: dict_set k v d'
  end.

(** [dict(pairs)] *)
Definition dict_of (pairs : list (str * value)) : list (str * value) :=
  fold_left (fun d kv => dict_set (fst kv) (snd kv) d) pairs [].

(** [scan_once], [JSONArray] and [JSONObject].  The cursor of [parse_items]
    is on the first character of an element, that of [parse_members] on the
    quote that opens a key.  [fuel] bounds the nesting and the number of
    elements read; the text length is always enough. *)
Fixpoint parse_value (fuel : nat) (s : str) {struct fuel}
  : option (value * str) :=
  match fuel with
  | 0 => None
  | S fuel' =>
    match s with
    | [] => None
    | c :: r =>
      if (c =? 34)%N then
        match scan_string r with
        | Some (x, rest) => Some (Str x, rest)
        | None => None
        end
      else if (c =? 91)%N then
        match skip_ws r with
        | [] => None
        | c1 :: r1 =>
          if (c1 =? 93)%N then Some (Arr [], r1)
          else
            match parse_items fuel' (c1 :: r1) with
            | Some (items, rest) => Some (Arr items, rest)
            | None => None
            end
        end
      else if (c =? 123)%N then
        match skip_ws r with
        | [] => None
        | c1 :: r1 =>
          if (c1 =? 125)%N then Some (Obj [], r1)
          else
            match parse_members fuel' (c1 :: r1) with
            | Some (pairs, rest) => Some (Obj (dict_of pairs), rest)
            | None => None
            end
        end
      else
        match scan_int s with
        | Some (n, rest) => Some (Int n, rest)
        | None => None
        end
    end
  end

with parse_items (fuel : nat) (s : str) {struct fuel}
  : option (list value * str) :=
  match fuel with
  | 0 => None
  | S fuel' =>
    match parse_value fuel' s with
    | None => None
    | Some (v, r) =>
      match skip_ws r with
      | [] => None
      | c :: r1 =>
        if (c =? 44)%N then
          match parse_items fuel' (skip_ws r1) with
          | Some (vs, rest) => Some (v :: vs, rest)
          | None => None
          end
        else if (c =? 93)%N then Some ([v], r1)
        else None
      end
    end
  end

with parse_members (fuel : nat) (s : str) {struct fuel}
  : option (list (str * value) * str) :=
  match fuel with
  | 0 => None
  | S fuel' =>
    match s with
    | [] => None
    | q :: r0 =>
      if negb (q =? 34)%N then None
      else
        match scan_string r0 with
        | None => None
        | Some (key, r) =>
          match skip_ws r with
          | [] => None
          | colon :: r1 =>
            if negb (colon =? 58)%N then None
            else
              match parse_value fuel' (skip_ws r1) with
              | None => None
              | Some (v, r2) =>
                match skip_ws r2 with
                | [] => None
                | c :: r3 =>
                  if (c =? 44)%N then
                    match parse_members fuel' (skip_ws r3) with
                    | Some (kvs, rest) => Some ((key, v) :: kvs, rest)
                    | None => None
                    end
                  else if (c =? 125)%N then Some ([(key, v)], r3)
                  else None
                end
              end
          end
        end
    end
  end.

(** [json.loads]: one value, white space around it, and nothing else. *)
Definition loads (s : str) : option value :=
  match parse_value (S (length s)) (skip_ws s) with
  | Some (v, rest) =>
    match skip_ws rest with
    | [] => Some v
    | _ :: _ => None
    end
  | None => None
  end.

(** *** Text files opened with [encoding='utf-8']

    A file is the text it holds.  Writing text with a surrogate code point
    (U+D800..U+DFFF) raises [UnicodeEncodeError]; reading returns the text
    written. *)
Definition is_surrogate (c : cp) : bool := in_range 55296 57343 c.

Definition write_text (text : str) : option str :=
  if existsb is_surrogate text then None else Some text.

Definition read_text (file : str) : str := file.

(** [json.dump(obj, f, indent=2, ensure_ascii=False)] and [json.load(f)] *)
Definition dump (obj : value) : option str := write_text (dumps obj).

Definition load (file : str) : option value := loads (read_text file).

(** What a value must satisfy to be a Python object that can be written:
    distinct keys in every dictionary, no surrogate in any string. *)
Definition encodable (s : str) : bool := negb (existsb is_surrogate s).

Fixpoint distinct (keys : list str) : bool :=
  match keys with
  | [] => true
  | k :: keys' => negb (existsb (eqb k) keys') && distinct keys'
  end.

Fixpoint well_formed (v : value) : bool :=
  match v with
  | Int _ => true
  | Str s => encodable s
  | Arr items => forallb well_formed items
  | Obj members =>
    distinct (map fst members)
    && forallb (fun kv => encodable (fst kv) && well_formed (snd kv)) members
  end.

(** *** Notions used to state the round trip *)

(** Text that does not continue a number: the end, a comma or a line
    break. *)
Definition delimited (rest : str) : Prop :=
  match rest with
  | [] => True
  | c :: _ => c = 44%N \/ c = 10%N
  end.

(** The first character of a number: a digit or the sign. *)
Definition number_start (c : cp) : Prop :=
  c = 45%N \/ (48 <= c <= 57)%N.

(** The text of one member of a dictionary *)
Definition member_text (level : nat) (kv : str * value) : str :=
  encode_string (fst kv) ++ u ": " ++ encode level (snd kv).

(** The first character of an encoded value *)
Definition value_start (c : cp) : Prop :=
  c = 34%N \/ c = 91%N \/ c = 123%N \/ number_start c.

(** Decoding gives back a value from its encoding, at any nesting level and
    before any delimited text, with fuel for the length of the encoding. *)
Definition round_trips (v : value) : Prop :=
  forall fuel level rest,
    well_formed v = true ->
    length (encode level v) <= fuel ->
    delimited rest ->
    parse_value fuel (encode level v ++ rest) = Some (v, rest).

End Json.

(** ** The PDF objects the structure scripts read and write *)

Module Pdf.
Import Py.

(** A structure element, by the keys the scripts use: the name /S, the
    title /T, the alternative text /Alt and the children /K.  The parent
    link /P and the /Type entry are not represented. *)
Unset Elimination Schemes.
Inductive StructElem :=
| Elem (S : option str) (T : option str) (Alt : option str)
       (K : option (list StructElem)).
Set Elimination Schemes.

Definition elem_S (e : StructElem) : option str :=
  match e with Elem s _ _ _ => s end.

Definition elem_T (e : StructElem) : option str :=
  match e with Elem _ t _ _ => t end.


Definition elem_K (e : StructElem) : option (list StructElem) :=
  match e with Elem _ _ _ k => k end.

(** [if '/K' not in d: d.K = Array([])], then [d.K.append(e)] *)
Definition append_child (d e : StructElem) : StructElem :=
  match d with
  | Elem s t a k =>
    Elem s t a (Some (match k with Some kids => kids | None => [] end ++ [e]))
  end.

(** /MarkInfo and /ViewerPreferences: the flag the scripts set, and the
    other entries of the dictionary. *)
Record MarkInfoDict := {
  Marked : option bool;
  mark_others : list (str * str)
}.

Record ViewerPreferencesDict := {
  DisplayDocTitle : option bool;
  viewer_others : list (str * str)
}.

(** An open document: in the catalog, /StructTreeRoot with its /K (an
    array of structure elements, or missing), /MarkInfo,
    /ViewerPreferences and /Lang; in the document information, /Title and
    /Author. *)
Record Document := {
  StructTreeRoot : option (option (list StructElem));
  MarkInfo : option MarkInfoDict;
  ViewerPreferences : option ViewerPreferencesDict;
  Lang : option str;
  Title : option str;
  Author : option str
}.

(** [Dictionary(Type=Name.StructElem, S=Name.Document, ..., K=Array([]))] *)
Definition new_document_elem : StructElem :=
  Elem (Some (u "/Document")) None None (Some []).

(** [pdf.Root.ViewerPreferences.DisplayDocTitle = True], the dictionary
    created when missing *)
Definition display_doc_title (vp : option ViewerPreferencesDict)
  : ViewerPreferencesDict :=
  {| DisplayDocTitle := Some true;
     viewer_others := match vp with
                      | Some d => viewer_others d
                      | None => []
                      end |}.

(** [metadata.get(key)], when truthy *)
Definition truthy (value : option str) : option str :=
  match value with
  | Some v => if nonempty v then Some v else None
  | None => None
  end.

(** The children of an element, none when /K is missing, and the children
    of the first element under the root, where the scripts put theirs. *)
Definition children (e : StructElem) : list StructElem :=
  match elem_K e with
  | Some kids => kids
  | None => []
  end.

Definition document_children (pdf : Document) : list StructElem :=
  match StructTreeRoot pdf with
  | Some (Some (doc :: _)) => children doc
  | _ => []
  end.

End Pdf.

(** ** scripts/add_heading_tags.py *)

Module AddHeadingTags.
Import Py.

(** A text block of [extract_text_with_fonts] and a heading of
    [identify_headings], with the keys of the source's dictionaries. *)
Record TextBlock := {
  id : Z;
  page : Z;
  text : str;
  is_heading : bool;
  level : Z;
  char_count : nat;
  word_count : nat
}.

(** [block_id] is set by [identify_headings]; a hand-written headings file
    gives page, text and level only. *)
Record Heading := {
  h_page : Z;
  h_text : str;
  h_level : Z;
  h_block_id : option Z
}.

Definition heading_keywords : list str :=
  map u ["introduction"; "background"; "method"; "result"; "discussion";
         "conclusion"; "summary"; "overview"; "chapter"; "section";
         "föreläsning"; "introduktion"; "bakgrund"; "metod"; "resultat";
         "diskussion"; "sammanfattning"; "översikt"; "kapitel"]%string.

(** The float literal 0.6 *)
Definition threshold : float := 0x1.3333333333333p-1%float.

Section Heuristics.
Context {db : UnicodeData}.

(** [w and w[0].isupper()] *)
Definition starts_upper (w : str) : bool :=
  match w with
  | [] => false
  | c :: _ => isupper [c]
  end.

(** [sum(1 for w in words if w and w[0].isupper())] *)
Definition capitalized (words : list str) : nat :=
  length (filter starts_upper words).

Definition title_case (text : str) : bool :=
  let words := split text in
  (1 <? length words)
  && PrimFloat.ltb threshold (truediv (capitalized words) (length words)).

Definition starts_like_item (text : str) : bool :=
  match text with
  | [] => false
  | c :: _ =>
    isdigit [c] || startswith text (u "•") || startswith text (u "-")
  end.

Definition detect_heading_heuristic (text : str) : bool :=
  if 100 <? length text then false
  else if endswith text (u ".") || endswith text (u ",") then false
  else if isupper text && (3 <? length text) then true
  else if title_case text then true
  else if starts_like_item text then true
  else if existsb (fun kw => contains kw (lower text)) heading_keywords
       then true
  else false.

Definition estimate_heading_level (line : str) (all_lines : list str) : Z :=
  if (length line <? 30) && isupper line then 1
  else if nonempty line && isdigit (slice line 0 1)
          && negb (isdigit (slice line 1 2)) then 2
  else if nonempty line && (2 <? length line) && isdigit (slice line 0 1)
          && contains (slice line 1 2) (u ".):") then 3
  else if length line <? 20 then 2
  else if length line <? 40 then 3
  else 4.

(** The inner loop over the lines of one page; [block_id] is threaded. *)
Fixpoint page_blocks (page_num : Z) (lines : list str) (rest : list str)
         (block_id : Z) : list TextBlock * Z :=
  match rest with
  | [] => ([], block_id)
  | raw :: rest' =>
    let line := strip raw in
    if nonempty line then
      let block_id := (block_id + 1)%Z in
      let b := {| id := block_id;
                  page := page_num;
                  text := line;
                  is_heading := detect_heading_heuristic line;
                  level := estimate_heading_level line lines;
                  char_count := length line;
                  word_count := length (split line) |} in
      let (bs, block_id') := page_blocks page_num lines rest' block_id in
      (b :: bs, block_id')
    else page_blocks page_num lines rest' block_id
  end.

(** The loop over pages; a page is the result of [page.extract_text()],
    [None] when that call raises (the page is then skipped with a
    warning). *)
Fixpoint extract_pages (page_num : Z) (pages : list (option str))
         (block_id : Z) : list TextBlock :=
  match pages with
  | [] => []
  | None :: pages' => extract_pages (page_num + 1)%Z pages' block_id
  | Some page_text :: pages' =>
    if negb (nonempty (strip page_text))
    then extract_pages (page_num + 1)%Z pages' block_id
    else
      let lines := split_sep page_text 10%N in
      let (bs, block_id') := page_blocks page_num lines lines block_id in
      bs ++ extract_pages (page_num + 1)%Z pages' block_id'
  end.

Definition extract_text_with_fonts (pages : list (option str))
  : list TextBlock :=
  extract_pages 1%Z pages 0%Z.

Definition identify_headings (text_blocks : list TextBlock) : list Heading :=
  map (fun b => {| h_page := page b; h_text := text b;
                   h_level := level b; h_block_id := Some (id b) |})
      (filter is_heading text_blocks).
End Heuristics.

(** The dictionary of a heading, and the list [headings] of [main]. *)
Definition heading_value (h : Heading) : Json.value :=
  Json.Obj
    ([(u "page", Json.Int (h_page h));
      (u "text", Json.Str (h_text h));
      (u "level", Json.Int (h_level h))]
       ++ match h_block_id h with
          | Some b => [(u "block_id", Json.Int b)]
          | None => []
          end).

Definition headings_value (headings : list Heading) : Json.value :=
  Json.Arr (map heading_value headings).

(** [load_manual_headings]: the file is read with [json.load]; [None] when
    that raises. *)
Definition load_manual_headings (headings_file : str) : option Json.value :=
  Json.load headings_file.

(** The export step of [main]:
    [json.dump(headings, f, indent=2, ensure_ascii=False)] on a file opened
    for writing with [encoding='utf-8']; the file written, or [None] when
    the write raises. *)
Definition export_headings (headings : Json.value) : option str :=
  Json.dump headings.

(** The [metadata] dictionary [main] builds from the command line *)
Record Metadata := {
  m_title : option str;
  m_author : option str;
  m_language : option str
}.

(** [Name(f'/H{level}')] with [level = min(heading['level'], 6)] *)
Definition heading_tag (h : Heading) : str :=
  u "/H" ++ Json.encode_int (Z.min (h_level h) 6).

Definition heading_elem (h : Heading) : Pdf.StructElem :=
  Pdf.Elem (Some (heading_tag h)) (Some (h_text h)) None (Some []).

(** [add_heading_structure_tree], from the opened document to the saved
    one; [None] when reading [struct_tree_root.K] raises, the key being
    missing. *)
Definition add_heading_structure_tree (pdf : Pdf.Document)
           (headings : list Heading) (metadata : option Metadata)
  : option Pdf.Document :=
  match
    match Pdf.StructTreeRoot pdf with
    | None => Some []
    | Some root_K => root_K
    end
  with
  | None => None
  | Some kids =>
    let (document_elem, siblings) :=
      match kids with
      | [] => (Pdf.new_document_elem, [])
      | first :: rest => (first, rest)
      end in
    let document_elem :=
      fold_left (fun d h => Pdf.append_child d (heading_elem h))
                headings document_elem in
    let provided (field : Metadata -> option str) :=
      match metadata with
      | Some m => Pdf.truthy (field m)
      | None => None
      end in
    let or_keep (new old : option str) :=
      match new with Some v => Some v | None => old end in
    Some {| Pdf.StructTreeRoot := Some (Some (document_elem :: siblings));
            Pdf.MarkInfo := Some {| Pdf.Marked := Some true;
                                    Pdf.mark_others := [] |};
            Pdf.ViewerPreferences :=
              Some (Pdf.display_doc_title (Pdf.ViewerPreferences pdf));
            Pdf.Lang := or_keep (provided m_language) (Pdf.Lang pdf);
            Pdf.Title := or_keep (provided m_title) (Pdf.Title pdf);
            Pdf.Author := or_keep (provided m_author) (Pdf.Author pdf) |}
  end.

(** [str(e.S).startswith('/H')], false without /S *)
Definition is_heading_elem (e : Pdf.StructElem) : bool :=
  match Pdf.elem_S e with
  | Some name => startswith name (u "/H")
  | None => false
  end.

(** The verification step of [main]: the number of heading elements it
    reports, [None] when it reports nothing. *)
Definition verify_heading_elements (pdf : Pdf.Document) : option nat :=
  match Pdf.StructTreeRoot pdf with
  | Some (Some (doc :: _)) =>
    match Pdf.elem_K doc with
    | Some kids => Some (length (filter is_heading_elem kids))
    | None => None
    end
  | _ => None
  end.

(** The names of the six standard heading elements *)
Definition standard_tags : list str :=
  map u ["/H1"; "/H2"; "/H3"; "/H4"; "/H5"; "/H6"]%string.

(** The block ids after [b]: b + 1, ..., b + n *)
Definition ids_from (b : Z) (n : nat) : list Z :=
  map (fun i => (b + Z.of_nat i)%Z) (seq 1 n).

End AddHeadingTags.

(** ** scripts/analyze_and_tag_pdf.py *)

Module AnalyzeAndTagPdf.
Import Py.

(** The module-level dictionary, in its insertion order, which is the order
    [.items()] iterates in. *)
Definition DOC_TYPE_PATTERNS : list (str * list Re.pattern) :=
  [ (u "lecture", map Re.compile
      ["\blecture\b"; "\bslide\b"; "\blesson\b"; "\bchapter\s+\d+";
       "\bcourse\b"; "\bsyllabus\b"; "\bsemester\b";
       "\bföreläsning"; "\bintroduktion"; "\bintro\b"; "\bkurs\b";
       "\bvorlesung\b"; "\beinführung\b";
       "\bcours\b"; "\bconférence\b";
       "\bclase\b"; "\blección\b"]%string);
    (u "instructions", map Re.compile
      ["\binstruction"; "\bhow\s+to\b"; "\bguide\b"; "\bmanual\b";
       "\bstep\s+\d+"; "\bprocedure\b"; "\btutorial\b";
       "\binstruktion"; "\bhandledning\b"; "\bguide\b";
       "\banleitung\b"; "\bhandbuch\b";
       "\bmanuel\b"; "\bguide\b"]%string);
    (u "workshop", map Re.compile
      ["\bworkshop\b"; "\btraining\b"; "\bexercise\b"; "\bhands-on";
       "\bactivity\b"; "\bpractical\b";
       "\bverkstad\b"; "\bövning"; "\butbildning\b";
       "\bworkshop\b"; "\bübung\b";
       "\batelier\b"; "\bexercice\b"]%string);
    (u "report", map Re.compile
      ["\breport\b"; "\banalysis\b"; "\bfindings\b"; "\bsummary\b";
       "\bconclusion\b"; "\babstract\b";
       "\brapport\b"; "\banalys\b"; "\bsammanfattning\b";
       "\bbericht\b"; "\banalyse\b";
       "\brapport\b"; "\banalyse\b"]%string);
    (u "form", map Re.compile
      ["\bform\b"; "\bapplication\b"; "\bfill\s+out"; "\bsubmit\b";
       "\bsignature\b";
       "\bformulär\b"; "\bansökan\b";
       "\bformular\b"; "\bantrag\b";
       "\bformulaire\b"]%string);
    (u "presentation", map Re.compile
      ["\bpresentation\b"; "\bslideshow\b"; "\boverview\b"; "\bagenda\b";
       "\bpresentation\b"; "\böversikt\b";
       "\bpräsentation\b"; "\bübersicht\b";
       "\bprésentation\b"]%string);
    (u "article", map Re.compile
      ["\barticle\b"; "\bpaper\b"; "\bjournal\b"; "\bpublication\b";
       "\bresearch\b";
       "\bartikel\b"; "\buppsats\b"; "\bforskning\b";
       "\bartikel\b"; "\bforschung\b";
       "\barticle\b"; "\brecherche\b"]%string);
    (u "brochure", map Re.compile
      ["\bbrochure\b"; "\bflyer\b"; "\bpamphlet\b"; "\bpromotional\b";
       "\bbroschyr\b"; "\bflygblad\b";
       "\bbroschüre\b"; "\bflugblatt\b";
       "\bbrochure\b"; "\bprospectus\b"]%string) ].

(** The langdetect library: [None] stands for a raised
    [LangDetectException].  An element of [detect_langs] prints as
    "code:probability"; the pair is what the comprehension in
    [detect_language] reads back from that text. *)
Class LangDetect := {
  detect : str -> option str;
  detect_langs : str -> option (list (str * float))
}.

(** What the scripts read of a [pypdf.PdfReader]: the document information
    and the text [extract_text()] gives for each page. *)
Record DocumentInformation := {
  md_title : option str;
  md_author : option str
}.

Record PdfReader := {
  metadata : option DocumentInformation;
  pages : list str
}.

(** The keys of the dictionary [analyze_pdf] returns, except the author and
    the copy of the existing metadata. *)
Record Analysis := {
  filename : str;
  page_count : nat;
  primary_language : str;
  language_probabilities : list (str * float);
  document_type : str;
  format : str;
  tags : list str;
  suggested_title : str;
  suggested_subject : str;
  suggested_keywords : str
}.

Section Analysis.
Context {db : UnicodeData} {ld : LangDetect}.

Definition english : str * list (str * float) :=
  (u "en", [(u "en", 1%float)]).

Definition detect_language (text : str) : str * list (str * float) :=
  if negb (nonempty text) || (length (strip text) <? 10) then english
  else
    match detect text with
    | None => english
    | Some primary =>
      match detect_langs text with
      | None => english
      | Some lang_probs => (primary, lang_probs)
      end
    end.

(** The first loop of [classify_document_type]: the first category, in
    table order, one of whose patterns is found in the file name. *)
Fixpoint filename_type (table : list (str * list Re.pattern))
         (filename_lower : str) : option str :=
  match table with
  | [] => None
  | (doc_type, patterns) :: table' =>
    if existsb (fun p => Re.search true p filename_lower) patterns
    then Some doc_type
    else filename_type table' filename_lower
  end.

(** The inner loop of the second: [score += len(re.findall(...))]. *)
Definition score_of (patterns : list Re.pattern) (text_lower : str) : nat :=
  fold_left (fun score p => score + Re.findall_count true p text_lower)
            patterns 0.

(** The dictionary [scores]: the categories with a positive score, in
    table order. *)
Fixpoint content_scores (table : list (str * list Re.pattern))
         (text_lower : str) : list (str * nat) :=
  match table with
  | [] => []
  | (doc_type, patterns) :: table' =>
    let score := score_of patterns text_lower in
    if 0 <? score
    then (doc_type, score) :: content_scores table' text_lower
    else content_scores table' text_lower
  end.

(** [max(scores, key=scores.get)]: the running maximum is replaced only
    by a strictly larger score. *)
Fixpoint max_from (best : str * nat) (rest : list (str * nat)) : str :=
  match rest with
  | [] => fst best
  | kv :: rest' =>
    if snd best <? snd kv then max_from kv rest' else max_from best rest'
  end.

Definition classify_document_type (text filename : str) : str :=
  let text_lower := lower text in
  let filename_lower := lower filename in
  match filename_type DOC_TYPE_PATTERNS filename_lower with
  | Some doc_type => doc_type
  | None =>
    match content_scores DOC_TYPE_PATTERNS text_lower with
    | [] => u "document"
    | kv :: rest => max_from kv rest
    end
  end.

Definition tag_if (source : string) (text_lower : str) (tag : string)
  : list str :=
  if Re.search false (Re.compile source) text_lower then [u tag] else [].

Definition generate_content_tags (text doc_type : str) (is_slides : bool)
  : list str :=
  let text_lower := lower text in
  let word_count := length (split text) in
  [doc_type]
    ++ [if is_slides then u "slides" else u "text-document"]
    ++ tag_if "\b(diagram|figure|chart|graph|image)\b" text_lower
              "visual-content"
    ++ tag_if "\b(table|column|row)\b" text_lower "tabular-data"
    ++ tag_if "\b(code|programming|function|class|variable)\b" text_lower
              "technical-content"
    ++ tag_if "\b(equation|formula|theorem|proof)\b" text_lower
              "mathematical-content"
    ++ tag_if "\b(reference|citation|bibliography)\b" text_lower "academic"
    ++ (if word_count <? 500 then [u "brief"]
        else if 5000 <? word_count then [u "comprehensive"]
        else []).

(** [reader.metadata and reader.metadata.title], when truthy *)
Definition embedded_title (reader : PdfReader) : option str :=
  match metadata reader with
  | Some info =>
    match md_title info with
    | Some t => if nonempty t then Some t else None
    | None => None
    end
  | None => None
  end.

Definition extract_title_from_pdf (reader : PdfReader) (text : str)
  : option str :=
  match embedded_title reader with
  | Some t => Some t
  | None =>
    match pages reader with
    | [] => None
    | first_page_text :: _ =>
      let lines :=
        map strip
            (filter (fun line => nonempty (strip line))
                    (split_sep first_page_text 10%N)) in
      match lines with
      | [] => None
      | potential_title :: _ =>
        if length potential_title <? 100 then Some potential_title
        else None
      end
    end
  end.

(** [title or path.stem.replace('_', ' ').replace('-', ' ').title()] *)
Definition title_or_stem (title_found : option str) (stem : str) : str :=
  match title_found with
  | Some t =>
    if nonempty t then t
    else title (replace (replace stem 95%N 32%N) 45%N 32%N)
  | None => title (replace (replace stem 95%N 32%N) 45%N 32%N)
  end.

(** [analyze_pdf], given the file name and stem of the path, the result of
    [extract_text_from_pdf] and the reader opened on the file. *)
Definition analyze_pdf (name stem : str) (extracted : str * nat * bool)
           (reader : PdfReader) : Analysis :=
  let '(text, n_pages, is_slides) := extracted in
  let (primary_lang, lang_probs) := detect_language text in
  let doc_type := classify_document_type text name in
  let tag_list := generate_content_tags text doc_type is_slides in
  let title_found := extract_title_from_pdf reader text in
  {| filename := name;
     page_count := n_pages;
     primary_language := primary_lang;
     language_probabilities := lang_probs;
     document_type := doc_type;
     format := if is_slides then u "slides" else u "text-document";
     tags := tag_list;
     suggested_title := title_or_stem title_found stem;
     suggested_subject :=
       title doc_type ++ u " - " ++ join (u ", ") (firstn 3 tag_list);
     suggested_keywords := join (u ", ") tag_list |}.
(** *** The notions of the title rule *)

(** The document information holds the title [t], a non-empty string. *)
Definition has_embedded_title (reader : PdfReader) (t : str) : Prop :=
  exists info,
    metadata reader = Some info /\ md_title info = Some t /\ t <> [].

(** [l] is the first line of page one that is not blank, without the white
    space around it. *)
Definition first_line_of_page_one (reader : PdfReader) (l : str) : Prop :=
  exists page more blanks raw after,
    pages reader = page :: more
    /\ split_sep page 10%N = blanks ++ raw :: after
    /\ Forall (fun b => strip b = []) blanks
    /\ strip raw <> []
    /\ l = strip raw.
End Analysis.

(** A run of langdetect on text it finds no feature in: both entry points
    raise. *)
Definition NoFeatures : LangDetect :=
  {| detect := fun _ => None; detect_langs := fun _ => None |}.

End AnalyzeAndTagPdf.

(** ** scripts/add_alt_text_to_images.py *)

Module AddAltTextToImages.
Import Py.

(** An image of [extract_images_from_pdf], by the keys the structure code
    reads: the ordinal, the page and the alternative text ([None] until one
    of the [add_alt_text_*] functions sets it). *)
Record Image := {
  img_id : Z;
  img_page : Z;
  img_bytes : list Byte.byte;
  alt_text : option str
}.

(** [alt_texts[key]] on the dictionary read from the file, [None] when
    [key not in alt_texts] *)
Fixpoint lookup (alt_texts : list (str * str)) (key : str) : option str :=
  match alt_texts with
  | [] => None
  | (k, v) :: rest => if eqb k key then Some v else lookup rest key
  end.

(** [add_alt_text_from_file], given the dictionary [json.load] returns for
    a file in the documented format, from ordinals written as strings to
    texts. *)
Definition add_alt_text_from_file (images : list Image)
           (alt_texts : list (str * str)) : list Image :=
  map (fun img =>
         {| img_id := img_id img;
            img_page := img_page img;
            img_bytes := img_bytes img;
            alt_text :=
              Some (match lookup alt_texts (Json.encode_int (img_id img)) with
                    | Some text => text
                    | None => []
                    end) |})
      images.

Section Auto.
Context {db : UnicodeData}.

(** Whether the [anthropic] module could be imported, and what
    [client.messages.create] answers for the PNG bytes of an image: the text
    of the first content block, [None] when anything in the [try] block
    raises. *)
Variable ANTHROPIC_AVAILABLE : bool.
Variable create_message : list Byte.byte -> option str.


End Auto.

(** The [metadata] dictionary [main] builds from the command line *)
Record Metadata := {
  m_title : option str;
  m_author : option str;
  m_language : option str
}.

(** [Dictionary(Type=Name.StructElem, S=Name.Figure, ..., Alt=String(text),
    K=Array([]))] *)
Definition figure_elem (text : str) : Pdf.StructElem :=
  Pdf.Elem (Some (u "/Figure")) None (Some text) (Some []).

(** The loop of [create_structure_tree_with_images] over the images: a
    Figure for each image whose text is truthy. *)
Definition add_figure (document_elem : Pdf.StructElem) (img : Image)
  : Pdf.StructElem :=
  match alt_text img with
  | Some text =>
    if nonempty text then Pdf.append_child document_elem (figure_elem text)
    else document_elem
  | None => document_elem
  end.



(** [[i for i in images if i['alt_text']]], by text: the images the summary
    of [main] counts as having an alternative text. *)
Definition texts_present (images : list Image) : list str :=
  flat_map (fun img =>
              match alt_text img with
              | Some text => if nonempty text then [text] else []
              | None => []
              end)
           images.

End AddAltTextToImages.

(** ** scripts/complete_accessibility_with_headings.py *)

Module CompleteAccessibilityWithHeadings.
Import Py AddHeadingTags AddAltTextToImages.

(** [img.get('alt_text')], as a condition *)
Definition has_alt_text (img : Image) : bool :=
  match alt_text img with
  | Some text => nonempty text
  | None => false
  end.

Definition figure_elem (img : Image) : Pdf.StructElem :=
  Pdf.Elem (Some (u "/Figure")) None (alt_text img) (Some []).




End CompleteAccessibilityWithHeadings.

(** * Properties *)

Unset Implicit Arguments.

(** ** Strings *)

Section StringFacts.
Import Py.
Context {db : UnicodeData}.

Lemma startswith_app (p r : str) : startswith (p ++ r) p = true.
Proof.
  induction p as [|c p IH]; simpl; [reflexivity|].
  now rewrite N.eqb_refl, IH.
Qed.

Lemma endswith_app (pre suf : str) : endswith (pre ++ suf) suf = true.
Proof.
  unfold endswith. rewrite rev_app_distr. apply startswith_app.
Qed.

Lemma lstrip_length (s : str) : length (lstrip s) <= length s.
Proof.
  induction s as [|c s IH]; simpl; [lia|].
  destruct (cp_isspace c); simpl; lia.
Qed.

Lemma strip_length (s : str) : length (strip s) <= length s.
Proof.
  unfold strip, rstrip. rewrite length_rev.
  etransitivity; [apply lstrip_length|].
  rewrite length_rev. apply lstrip_length.
Qed.

End StringFacts.

(** ** Headings *)

Section HeadingFacts.
Import Py AddHeadingTags.
Context {db : UnicodeData}.

Lemma estimate_heading_level_cases (line : str) (all_lines : list str) :
  let l := estimate_heading_level line all_lines in
  (l = 1 \/ l = 2 \/ l = 3 \/ l = 4)%Z.
Proof.
  unfold estimate_heading_level.
  repeat match goal with
         | |- context [if ?b then _ else _] => destruct b
         end; simpl; auto.
Qed.

(** Whatever holds of every estimated level holds of the level of every
    block, page by page. *)
Lemma page_blocks_level (P : Z -> Prop) :
  (forall line all_lines, P (estimate_heading_level line all_lines)) ->
  forall page_num lines rest block_id,
    Forall (fun b => P (level b))
           (fst (page_blocks page_num lines rest block_id)).
Proof.
  intros HP page_num lines rest.
  induction rest as [|raw rest IH]; intros block_id; simpl.
  - constructor.
  - destruct (nonempty (strip raw)); [|apply IH].
    specialize (IH (block_id + 1)%Z).
    destruct (page_blocks page_num lines rest (block_id + 1)) as [bs id'].
    simpl in *. constructor; [apply HP | exact IH].
Qed.

Lemma extract_pages_level (P : Z -> Prop) :
  (forall line all_lines, P (estimate_heading_level line all_lines)) ->
  forall pages page_num block_id,
    Forall (fun b => P (level b)) (extract_pages page_num pages block_id).
Proof.
  intros HP pages.
  induction pages as [|pg pages IH]; intros page_num block_id; simpl.
  - constructor.
  - destruct pg as [page_text|]; [|apply IH].
    destruct (negb (nonempty (strip page_text))); [apply IH|].
    pose proof (page_blocks_level P HP page_num
                  (split_sep page_text 10%N) (split_sep page_text 10%N)
                  block_id) as Hb.
    destruct (page_blocks page_num _ _ block_id) as [bs id'].
    simpl in Hb. apply Forall_app. split; [exact Hb | apply IH].
Qed.

Lemma identify_headings_level (P : Z -> Prop) (blocks : list TextBlock) :
  Forall (fun b => P (level b)) blocks ->
  Forall (fun h => P (h_level h)) (identify_headings blocks).
Proof.
  intros H. unfold identify_headings.
  apply Forall_map. simpl.
  apply Forall_forall. intros b Hb.
  apply filter_In in Hb as [Hb _].
  rewrite Forall_forall in H. now apply H.
Qed.

Lemma detected_headings_level (P : Z -> Prop) :
  (forall line all_lines, P (estimate_heading_level line all_lines)) ->
  forall pages,
    Forall (fun h => P (h_level h))
           (identify_headings (extract_text_with_fonts pages)).
Proof.
  intros HP pages. apply identify_headings_level.
  now apply extract_pages_level.
Qed.
End HeadingFacts.

(** For up to 50 words, which is all a line of at most 100 characters can
    hold, the float test [capitalized / len(words) > 0.6] is the exact test
    [5 * capitalized > 3 * len(words)]. *)
Lemma title_ratio_exact :
  forallb
    (fun n =>
       forallb
         (fun c =>
            Bool.eqb (PrimFloat.ltb AddHeadingTags.threshold (Py.truediv c n))
                     (3 * n <? 5 * c))
         (seq 0 (S n)))
    (seq 1 50)
  = true.
Proof. vm_compute. reflexivity. Qed.

(** C3: a line longer than 100 characters, or ending in "." or ",", is
    never a heading, whatever else holds of it; rejection comes before the
    upper-case trigger. *)
Theorem detect_heading_rejects_long_or_punctuated
        (db : Py.UnicodeData) (text : Py.str) :
  100 < length text
  \/ (exists pre, text = pre ++ Py.u ".")
  \/ (exists pre, text = pre ++ Py.u ",") ->
  AddHeadingTags.detect_heading_heuristic text = false.
Proof.
  intros H. unfold AddHeadingTags.detect_heading_heuristic.
  destruct (100 <? length text) eqn:Hlen; [reflexivity|].
  destruct H as [H | [[pre ->] | [pre ->]]].
  - apply Nat.ltb_ge in Hlen. lia.
  - now rewrite endswith_app.
  - rewrite (endswith_app pre (Py.u ",")).
    now rewrite orb_true_r.
Qed.

(** The line "HELLO WORLD." is fully upper case and ends in ".": it is
    rejected. *)
Lemma detect_heading_rejects_upper_case_sentence :
  Py.isupper (db := Py.Latin1) (Py.u "HELLO WORLD.") = true
  /\ AddHeadingTags.detect_heading_heuristic (db := Py.Latin1)
       (Py.u "HELLO WORLD.") = false.
Proof.
  split; [vm_compute; reflexivity|].
  apply (detect_heading_rejects_long_or_punctuated Py.Latin1
           (Py.u "HELLO WORLD.")).
  right; left. exists (Py.u "HELLO WORLD"). vm_compute. reflexivity.
Defined.

(** C6: the estimated level of every line is within 1..6, and so is the
    level of every heading that automatic detection produces. *)
Theorem estimate_heading_level_in_range (db : Py.UnicodeData) :
  (forall line all_lines,
      (1 <= AddHeadingTags.estimate_heading_level line all_lines <= 6)%Z)
  /\ (forall pages,
         Forall (fun h => (1 <= AddHeadingTags.h_level h <= 6)%Z)
                (AddHeadingTags.identify_headings
                   (AddHeadingTags.extract_text_with_fonts pages))).
Proof.
  assert (H : forall line all_lines,
             (1 <= AddHeadingTags.estimate_heading_level line all_lines <= 6)%Z).
  { intros line all_lines.
    pose proof (estimate_heading_level_cases line all_lines) as Hc.
    simpl in Hc. lia. }
  split; [exact H|].
  apply (detected_headings_level (fun l => (1 <= l <= 6)%Z) H).
Qed.

(** C9: the estimated level is one of 1, 2, 3, 4; automatic detection never
    produces a heading of level 5 or 6. *)
Theorem estimate_heading_level_at_most_4 (db : Py.UnicodeData) :
  (forall line all_lines,
      In (AddHeadingTags.estimate_heading_level line all_lines)
         [1; 2; 3; 4]%Z)
  /\ (forall pages,
         Forall (fun h => AddHeadingTags.h_level h <> 5%Z
                          /\ AddHeadingTags.h_level h <> 6%Z)
                (AddHeadingTags.identify_headings
                   (AddHeadingTags.extract_text_with_fonts pages))).
Proof.
  split.
  - intros line all_lines.
    pose proof (estimate_heading_level_cases line all_lines) as Hc.
    simpl in *. intuition auto.
  - apply (detected_headings_level (fun l => l <> 5%Z /\ l <> 6%Z)).
    intros line all_lines.
    pose proof (estimate_heading_level_cases line all_lines) as Hc.
    simpl in Hc. lia.
Qed.

(** C1: on "1.1 Background Methods" the heading predicate holds, and the
    level estimate is 2: the one-digit test comes first and takes every
    line that the numbering test "1." / "1)" would take. *)
Theorem numbered_heading_scenario :
  AddHeadingTags.detect_heading_heuristic (db := Py.Latin1)
    (Py.u "1.1 Background Methods") = true
  /\ forall all_lines,
      AddHeadingTags.estimate_heading_level (db := Py.Latin1)
        (Py.u "1.1 Background Methods") all_lines = 2%Z.
Proof.
  split; [vm_compute; reflexivity|].
  intros all_lines. vm_compute. reflexivity.
Qed.

(** No line reaches the numbering test of [estimate_heading_level]: when a
    line starts with a digit followed by ".", ")" or ":", the estimate is
    already 1 or 2. *)
Lemma numbering_test_unreachable (line : Py.str) (all_lines : list Py.str) :
  Py.isdigit (db := Py.Latin1) (Py.slice line 0 1) = true ->
  Py.contains (Py.slice line 1 2) (Py.u ".):") = true ->
  2 < length line ->
  AddHeadingTags.estimate_heading_level (db := Py.Latin1) line all_lines
  = 1%Z
  \/ AddHeadingTags.estimate_heading_level (db := Py.Latin1) line all_lines
     = 2%Z.
Proof.
  intros Hd Hc Hlen.
  destruct line as [|c0 [|c1 rest]]; simpl in Hlen; try lia.
  unfold AddHeadingTags.estimate_heading_level.
  destruct ((length (c0 :: c1 :: rest) <? 30)
            && Py.isupper (c0 :: c1 :: rest)); [now left|].
  right.
  assert (Hnd : Py.isdigit (db := Py.Latin1) (Py.slice (c0 :: c1 :: rest) 1 2)
                = false).
  { change (Py.slice (c0 :: c1 :: rest) 1 2) with [c1] in *.
    vm_compute in Hc.
    destruct c1 as [|p]; [discriminate|].
    repeat (destruct p as [p|p|]; try discriminate Hc; try reflexivity). }
  rewrite Hd, Hnd. reflexivity.
Qed.

(** C2: the file name "Lecture_01_Introduction.pdf" with empty text is
    classified "document": no pattern is found in the name, where "_" is a
    word character and so no word boundary follows "lecture"; with spaces
    for the underscores the name is classified "lecture". *)
Theorem underscore_filename_scenario :
  AnalyzeAndTagPdf.classify_document_type (db := Py.Latin1)
    (Py.u "") (Py.u "Lecture_01_Introduction.pdf") = Py.u "document"
  /\ AnalyzeAndTagPdf.filename_type (db := Py.Latin1)
       AnalyzeAndTagPdf.DOC_TYPE_PATTERNS
       (Py.lower (db := Py.Latin1) (Py.u "Lecture_01_Introduction.pdf"))
     = None
  /\ AnalyzeAndTagPdf.classify_document_type (db := Py.Latin1)
       (Py.u "") (Py.u "Lecture 01 Introduction.pdf") = Py.u "lecture".
Proof.
  repeat split; vm_compute; reflexivity.
Qed.

(** C5: on text shorter than 10 characters, and whenever the detector
    raises, the result is exactly ("en", [("en", 1.0)]). *)
Theorem detect_language_defaults_to_english
        (db : Py.UnicodeData) (ld : AnalyzeAndTagPdf.LangDetect)
        (text : Py.str) :
  length text < 10
  \/ AnalyzeAndTagPdf.detect text = None
  \/ AnalyzeAndTagPdf.detect_langs text = None ->
  AnalyzeAndTagPdf.detect_language text
  = (Py.u "en", [(Py.u "en", 1%float)]).
Proof.
  intros H. unfold AnalyzeAndTagPdf.detect_language.
  destruct (negb (Py.nonempty text) || (length (Py.strip text) <? 10))
    eqn:Hshort; [reflexivity|].
  apply orb_false_iff in Hshort as [_ Hshort].
  apply Nat.ltb_ge in Hshort.
  pose proof (strip_length text) as Hs.
  destruct H as [H | [H | H]].
  - lia.
  - now rewrite H.
  - rewrite H. now destruct (AnalyzeAndTagPdf.detect text).
Qed.

(** The short text "Hej", and a longer text of digits on which the
    detector raises. *)
Lemma detect_language_defaults_scenarios :
  AnalyzeAndTagPdf.detect_language (db := Py.Latin1)
    (ld := AnalyzeAndTagPdf.NoFeatures) (Py.u "Hej")
  = (Py.u "en", [(Py.u "en", 1%float)])
  /\ AnalyzeAndTagPdf.detect_language (db := Py.Latin1)
       (ld := AnalyzeAndTagPdf.NoFeatures) (Py.u "2024 2025 2026")
     = (Py.u "en", [(Py.u "en", 1%float)]).
Proof.
  split.
  - apply (detect_language_defaults_to_english Py.Latin1
             AnalyzeAndTagPdf.NoFeatures (Py.u "Hej")).
    left. vm_compute. lia.
  - apply (detect_language_defaults_to_english Py.Latin1
             AnalyzeAndTagPdf.NoFeatures (Py.u "2024 2025 2026")).
    right; left. reflexivity.
Defined.


(** ** Title *)

Section TitleFacts.
Import Py AnalyzeAndTagPdf.
Context {db : UnicodeData}.

(** The first element a filter keeps, and what it skips before it. *)
Lemma filter_first {A} (f : A -> bool) (xs : list A) :
  filter f xs = []
  \/ exists skipped x after,
      xs = skipped ++ x :: after
      /\ Forall (fun y => f y = false) skipped
      /\ f x = true
      /\ filter f xs = x :: filter f after.
Proof.
  induction xs as [|y xs IH]; simpl; [now left|].
  destruct (f y) eqn:Hy.
  - right. exists [], y, xs. repeat split; auto.
  - destruct IH as [IH | (skipped & x & after & -> & Hs & Hx & Hf)].
    + now left.
    + right. exists (y :: skipped), x, after. repeat split; auto.
Qed.

Lemma filter_skip {A} (f : A -> bool) (skipped : list A) x after :
  Forall (fun y => f y = false) skipped ->
  f x = true ->
  filter f (skipped ++ x :: after) = x :: filter f after.
Proof.
  intros Hs Hx. induction Hs as [|y skipped Hy _ IH]; simpl.
  - now rewrite Hx.
  - now rewrite Hy.
Qed.

Lemma nonempty_false (s : str) : nonempty s = false <-> s = [].
Proof. destruct s; simpl; split; congruence. Qed.

Lemma nonempty_true (s : str) : nonempty s = true <-> s <> [].
Proof. destruct s; simpl; split; congruence. Qed.

Lemma embedded_title_some (reader : PdfReader) (t : str) :
  embedded_title reader = Some t <-> has_embedded_title reader t.
Proof.
  unfold embedded_title, has_embedded_title. split.
  - destruct (metadata reader) as [info|]; [|discriminate].
    destruct (md_title info) as [t'|] eqn:Ht; [|discriminate].
    destruct (nonempty t') eqn:Hne; [|discriminate].
    intros [= <-]. exists info. repeat split; auto.
    now apply nonempty_true.
  - intros (info & -> & -> & Hne).
    apply nonempty_true in Hne. now rewrite Hne.
Qed.

Lemma embedded_title_none (reader : PdfReader) :
  (forall t, ~ has_embedded_title reader t) -> embedded_title reader = None.
Proof.
  intros H. destruct (embedded_title reader) as [t|] eqn:He; [|reflexivity].
  apply embedded_title_some in He. now apply H in He.
Qed.

(** The lines [extract_title_from_pdf] builds from page one start with the
    first line that is not blank. *)
Lemma first_line_computed (reader : PdfReader) (l : str) :
  first_line_of_page_one reader l ->
  exists page more rest,
    pages reader = page :: more
    /\ map strip (filter (fun line => nonempty (strip line))
                         (split_sep page 10%N)) = l :: rest.
Proof.
  intros (page & more & blanks & raw & after & Hp & Hs & Hb & Hr & ->).
  exists page, more. rewrite Hs.
  rewrite filter_skip.
  - simpl. eauto.
  - eapply Forall_impl; [|exact Hb]. intros b Hbb. simpl in Hbb.
    now apply nonempty_false.
  - now apply nonempty_true.
Qed.

Lemma first_line_found (page : str) (more : list str) (reader : PdfReader)
      (l : str) (rest : list str) :
  pages reader = page :: more ->
  map strip (filter (fun line => nonempty (strip line))
                    (split_sep page 10%N)) = l :: rest ->
  first_line_of_page_one reader l.
Proof.
  intros Hp Hm.
  destruct (filter_first (fun line => nonempty (strip line))
                         (split_sep page 10%N))
    as [Hnil | (blanks & raw & after & Hs & Hb & Hr & Hf)].
  - rewrite Hnil in Hm. discriminate.
  - rewrite Hf in Hm. simpl in Hm. injection Hm as <- _.
    exists page, more, blanks, raw, after. repeat split; auto.
    + eapply Forall_impl; [|exact Hb]. intros b Hbb. simpl in Hbb.
      now apply nonempty_false.
    + now apply nonempty_true.
Qed.

Lemma extract_title_first_line (reader : PdfReader) (text l : str) :
  (forall t, ~ has_embedded_title reader t) ->
  first_line_of_page_one reader l ->
  extract_title_from_pdf reader text
  = if length l <? 100 then Some l else None.
Proof.
  intros Hno Hl. unfold extract_title_from_pdf.
  rewrite (embedded_title_none reader Hno).
  destruct (first_line_computed reader l Hl) as (page & more & rest & -> & ->).
  reflexivity.
Qed.

End TitleFacts.

(** C7: the suggested title is the embedded title when there is one;
    otherwise the first non-blank line of page one when it is shorter than
    100 characters; otherwise the file stem with "_" and "-" replaced by
    spaces, in title case. *)
Theorem suggested_title_fallback_order
        (db : Py.UnicodeData) (ld : AnalyzeAndTagPdf.LangDetect)
        (name stem : Py.str) (extracted : Py.str * nat * bool)
        (reader : AnalyzeAndTagPdf.PdfReader) :
  let chosen :=
    AnalyzeAndTagPdf.suggested_title
      (AnalyzeAndTagPdf.analyze_pdf name stem extracted reader) in
  (forall t, AnalyzeAndTagPdf.has_embedded_title reader t -> chosen = t)
  /\ ((forall t, ~ AnalyzeAndTagPdf.has_embedded_title reader t) ->
      forall l,
        AnalyzeAndTagPdf.first_line_of_page_one reader l ->
        length l < 100 -> chosen = l)
  /\ ((forall t, ~ AnalyzeAndTagPdf.has_embedded_title reader t) ->
      (forall l,
          AnalyzeAndTagPdf.first_line_of_page_one reader l ->
          100 <= length l) ->
      chosen
      = Py.title (Py.replace (Py.replace stem 95%N 32%N) 45%N 32%N)).
Proof.
  destruct extracted as [[text n_pages] is_slides].
  unfold AnalyzeAndTagPdf.analyze_pdf.
  destruct (AnalyzeAndTagPdf.detect_language text) as [primary probs].
  cbn [AnalyzeAndTagPdf.suggested_title]. cbv zeta.
  split; [|split].
  - intros t Ht.
    pose proof Ht as (info & _ & _ & Hne).
    apply embedded_title_some in Ht.
    unfold AnalyzeAndTagPdf.extract_title_from_pdf. rewrite Ht.
    unfold AnalyzeAndTagPdf.title_or_stem.
    apply nonempty_true in Hne. now rewrite Hne.
  - intros Hno l Hl Hlen.
    rewrite (extract_title_first_line reader text l Hno Hl).
    apply Nat.ltb_lt in Hlen. rewrite Hlen.
    unfold AnalyzeAndTagPdf.title_or_stem.
    destruct Hl as (page & more & blanks & raw & after & _ & _ & _ & Hr & ->).
    apply nonempty_true in Hr. now rewrite Hr.
  - intros Hno Hlong.
    assert (He : AnalyzeAndTagPdf.extract_title_from_pdf reader text = None).
    { unfold AnalyzeAndTagPdf.extract_title_from_pdf.
      rewrite (embedded_title_none reader Hno).
      destruct (AnalyzeAndTagPdf.pages reader) as [|page more] eqn:Hp;
        [reflexivity|].
      destruct (map Py.strip _) as [|l rest] eqn:Hm; [reflexivity|].
      specialize (Hlong l (first_line_found page more reader l rest Hp Hm)).
      apply Nat.ltb_ge in Hlong. now rewrite Hlong. }
    rewrite He. reflexivity.
Qed.

(** Three documents, one for each rule: an embedded title; no document
    information and a first page whose first non-blank line is "Course
    Notes"; an empty embedded title, no page, and the stem
    "annual_report-2024". *)
Lemma suggested_title_scenarios :
  let analyze := AnalyzeAndTagPdf.analyze_pdf
                   (db := Py.Latin1) (ld := AnalyzeAndTagPdf.NoFeatures) in
  let info t :=
    {| AnalyzeAndTagPdf.md_title := Some t;
       AnalyzeAndTagPdf.md_author := None |} in
  AnalyzeAndTagPdf.suggested_title
    (analyze (Py.u "a.pdf") (Py.u "a") (Py.u "First line", 1, false)
       {| AnalyzeAndTagPdf.metadata := Some (info (Py.u "Annual Report"));
          AnalyzeAndTagPdf.pages := [Py.u "First line"] |})
  = Py.u "Annual Report"
  /\ AnalyzeAndTagPdf.suggested_title
       (analyze (Py.u "b.pdf") (Py.u "b") (Py.u "", 1, false)
          {| AnalyzeAndTagPdf.metadata := None;
             AnalyzeAndTagPdf.pages :=
               [[10; 32; 32; 10; 32] ++ Py.u "Course Notes "
                  ++ [10] ++ Py.u "Week 1"]%N |})
     = Py.u "Course Notes"
  /\ AnalyzeAndTagPdf.suggested_title
       (analyze (Py.u "annual_report-2024.pdf") (Py.u "annual_report-2024")
          (Py.u "", 0, false)
          {| AnalyzeAndTagPdf.metadata := Some (info []);
             AnalyzeAndTagPdf.pages := [] |})
     = Py.u "Annual Report 2024".
Proof.
  cbv zeta. split; [|split].
  - apply (proj1 (suggested_title_fallback_order Py.Latin1
                    AnalyzeAndTagPdf.NoFeatures _ _ _ _)).
    eexists. repeat split. vm_compute. discriminate.
  - apply (proj1 (proj2 (suggested_title_fallback_order Py.Latin1
                           AnalyzeAndTagPdf.NoFeatures _ _ _ _))).
    + intros t (info & Hm & _). discriminate Hm.
    + exists ([10; 32; 32; 10; 32] ++ Py.u "Course Notes "
                ++ [10] ++ Py.u "Week 1")%N, [],
             [[]; [32; 32]]%N, (32%N :: Py.u "Course Notes "), [Py.u "Week 1"].
      repeat split.
      * repeat constructor.
      * vm_compute. discriminate.
    + vm_compute. lia.
  - apply (proj2 (proj2 (suggested_title_fallback_order Py.Latin1
                           AnalyzeAndTagPdf.NoFeatures
                           (Py.u "annual_report-2024.pdf")
                           (Py.u "annual_report-2024") _ _))).
    + intros t (info & Hm & Ht & Hne). simpl in Hm.
      injection Hm as <-. simpl in Ht. injection Ht as <-. now apply Hne.
    + intros l (page & more & blanks & raw & after & Hp & _).
      discriminate Hp.
Defined.

(** ** Document type *)

Section ClassifyFacts.
Import Py AnalyzeAndTagPdf.
Context {db : UnicodeData}.

Lemma fold_left_sum {A} (f : A -> nat) (xs : list A) (acc : nat) :
  fold_left (fun score x => score + f x) xs acc = acc + list_sum (map f xs).
Proof.
  revert acc. induction xs as [|x xs IH]; intros acc; simpl; [lia|].
  rewrite IH. lia.
Qed.

Lemma score_of_sum (patterns : list Re.pattern) (text_lower : str) :
  score_of patterns text_lower
  = list_sum (map (fun p => Re.findall_count true p text_lower) patterns).
Proof. unfold score_of. now rewrite fold_left_sum. Qed.

Lemma filename_type_none (table : list (str * list Re.pattern))
      (filename_lower : str) :
  (forall c ps p,
      In (c, ps) table -> In p ps ->
      Re.search true p filename_lower = false) ->
  filename_type table filename_lower = None.
Proof.
  induction table as [|[c ps] table IH]; intros H; simpl; [reflexivity|].
  assert (He : existsb (fun p => Re.search true p filename_lower) ps = false).
  { destruct (existsb _ ps) eqn:He; [|reflexivity].
    apply existsb_exists in He as (p & Hp & Hs).
    rewrite (H c ps p) in Hs; [discriminate | now left | exact Hp]. }
  rewrite He. apply IH. intros c' ps' p Hin Hp.
  apply (H c' ps' p); [now right | exact Hp].
Qed.

Lemma content_scores_member (table : list (str * list Re.pattern))
      (text_lower c : str) (n : nat) :
  In (c, n) (content_scores table text_lower) ->
  exists ps, In (c, ps) table /\ n = score_of ps text_lower.
Proof.
  induction table as [|[c' ps'] table IH]; simpl; [tauto|].
  destruct (0 <? score_of ps' text_lower).
  - intros [[= <- <-] | Hin].
    + exists ps'. auto.
    + destruct (IH Hin) as (ps & Hps & ->). eauto.
  - intros Hin. destruct (IH Hin) as (ps & Hps & ->). eauto.
Qed.

Lemma content_scores_positive (table : list (str * list Re.pattern))
      (text_lower c : str) (ps : list Re.pattern) :
  In (c, ps) table -> 0 < score_of ps text_lower ->
  In (c, score_of ps text_lower) (content_scores table text_lower).
Proof.
  induction table as [|[c' ps'] table IH]; simpl; [tauto|].
  intros [[= -> ->] | Hin] Hpos.
  - apply Nat.ltb_lt in Hpos. rewrite Hpos. now left.
  - destruct (0 <? score_of ps' text_lower); [right|]; now apply IH.
Qed.

Lemma content_scores_all_zero (table : list (str * list Re.pattern))
      (text_lower : str) :
  (forall c ps, In (c, ps) table -> score_of ps text_lower = 0) ->
  content_scores table text_lower = [].
Proof.
  induction table as [|[c ps] table IH]; intros H; simpl; [reflexivity|].
  rewrite (H c ps) by now left. simpl.
  apply IH. intros c' ps' Hin. apply (H c' ps'). now right.
Qed.

(** [max] returns the key whose score is above all others. *)
Lemma max_from_strict (c : str) (n : nat) (rest : list (str * nat)) :
  forall best,
    In (c, n) (best :: rest) ->
    (forall kv, In kv (best :: rest) -> fst kv = c \/ snd kv < n) ->
    (forall kv, In kv (best :: rest) -> fst kv = c -> snd kv = n) ->
    max_from best rest = c.
Proof.
  induction rest as [|kv rest IH]; intros best Hin Hle Heq; simpl.
  - destruct Hin as [-> | []]. reflexivity.
  - assert (Hbound : forall kv', In kv' (best :: kv :: rest) -> snd kv' <= n).
    { intros kv' Hkv'. destruct (Hle kv' Hkv') as [Hc | Hlt]; [|lia].
      rewrite (Heq kv' Hkv' Hc). lia. }
    destruct (snd best <? snd kv) eqn:Hcmp.
    + apply Nat.ltb_lt in Hcmp. apply IH.
      * destruct Hin as [-> | Hin]; [|exact Hin].
        simpl in Hcmp. specialize (Hbound kv (or_intror (or_introl eq_refl))).
        lia.
      * intros kv' Hkv'. apply Hle. now right.
      * intros kv' Hkv'. apply Heq. now right.
    + apply Nat.ltb_ge in Hcmp. apply IH.
      * destruct Hin as [-> | [-> | Hin]]; [now left | | now right].
        simpl in Hcmp. left.
        destruct (Hle best (or_introl eq_refl)) as [Hc | Hlt]; [|lia].
        pose proof (Heq best (or_introl eq_refl) Hc) as Hn.
        destruct best as [bc bn]. simpl in *. congruence.
      * intros kv' [<- | Hkv']; apply Hle; [now left | now right; right].
      * intros kv' [<- | Hkv']; apply Heq; [now left | now right; right].
Qed.

(** The keys of the dictionary literal are distinct. *)
Lemma doc_type_keys_distinct : NoDup (map fst DOC_TYPE_PATTERNS).
Proof.
  vm_compute.
  repeat (constructor; [simpl; intuition discriminate|]).
  constructor.
Qed.

Lemma NoDup_keys_functional {K V} (table : list (K * V)) (k : K) (v v' : V) :
  NoDup (map fst table) -> In (k, v) table -> In (k, v') table -> v = v'.
Proof.
  induction table as [|[k0 v0] table IH]; simpl; [tauto|].
  intros Hnd [Hv | Hv] [Hv' | Hv']; inversion Hnd as [|? ? Hnotin Hnd']; subst.
  - congruence.
  - injection Hv as -> ->. exfalso. apply Hnotin.
    apply (in_map fst) in Hv'. exact Hv'.
  - injection Hv' as -> ->. exfalso. apply Hnotin.
    apply (in_map fst) in Hv. exact Hv.
  - now apply IH.
Qed.

Lemma doc_type_another (c : str) :
  exists c' ps', In (c', ps') DOC_TYPE_PATTERNS /\ c' <> c.
Proof.
  destruct (list_eq_dec N.eq_dec c (u "lecture")) as [-> | Hne].
  - eexists (u "instructions"), _. split.
    + right; left. reflexivity.
    + vm_compute. discriminate.
  - eexists (u "lecture"), _. split.
    + left. reflexivity.
    + congruence.
Qed.
End ClassifyFacts.

(** C4: when no pattern of any category is found in the file name, the
    result is the category whose summed match count over the lower-cased
    text is strictly above every other category's, and "document" when
    every count is zero. *)
Theorem classify_by_content_score
        (db : Py.UnicodeData) (text filename : Py.str) :
  (forall c ps p,
      In (c, ps) AnalyzeAndTagPdf.DOC_TYPE_PATTERNS -> In p ps ->
      Re.search true p (Py.lower filename) = false) ->
  let count ps :=
    list_sum (map (fun p => Re.findall_count true p (Py.lower text)) ps) in
  (forall c ps,
      In (c, ps) AnalyzeAndTagPdf.DOC_TYPE_PATTERNS ->
      (forall c' ps',
          In (c', ps') AnalyzeAndTagPdf.DOC_TYPE_PATTERNS ->
          c' <> c -> count ps' < count ps) ->
      AnalyzeAndTagPdf.classify_document_type text filename = c)
  /\ ((forall c ps,
          In (c, ps) AnalyzeAndTagPdf.DOC_TYPE_PATTERNS -> count ps = 0) ->
      AnalyzeAndTagPdf.classify_document_type text filename
      = Py.u "document").
Proof.
  intros Hname count.
  unfold AnalyzeAndTagPdf.classify_document_type.
  rewrite (filename_type_none _ _ Hname).
  assert (Hcount : forall ps,
             AnalyzeAndTagPdf.score_of ps (Py.lower text) = count ps).
  { intros ps. apply score_of_sum. }
  split.
  - intros c ps Hin Hmax.
    assert (Hpos : 0 < AnalyzeAndTagPdf.score_of ps (Py.lower text)).
    { destruct (doc_type_another c) as (c' & ps' & Hin' & Hne).
      specialize (Hmax c' ps' Hin' Hne). rewrite Hcount. lia. }
    pose proof (content_scores_positive _ _ _ _ Hin Hpos) as Hmem.
    destruct (AnalyzeAndTagPdf.content_scores _ _) as [|best rest] eqn:Hs;
      [destruct Hmem|].
    apply max_from_strict
      with (n := AnalyzeAndTagPdf.score_of ps (Py.lower text)).
    + exact Hmem.
    + intros [c' n'] Hkv. rewrite <- Hs in Hkv.
      apply content_scores_member in Hkv as (ps' & Hin' & ->). simpl.
      destruct (list_eq_dec N.eq_dec c' c) as [-> | Hne]; [now left|].
      right. rewrite !Hcount. now apply (Hmax c' ps').
    + intros [c' n'] Hkv Hc. rewrite <- Hs in Hkv. simpl in Hc. subst c'.
      apply content_scores_member in Hkv as (ps' & Hin' & ->). simpl.
      now rewrite (NoDup_keys_functional _ _ _ _ doc_type_keys_distinct
                     Hin' Hin).
  - intros Hzero.
    rewrite content_scores_all_zero; [reflexivity|].
    intros c ps Hin. rewrite Hcount. now apply (Hzero c ps).
Qed.

(** Checking a table row by row. *)
Lemma table_forall {V} (check : Py.str * V -> bool)
      (table : list (Py.str * V)) :
  forallb check table = true ->
  forall c v, In (c, v) table -> check (c, v) = true.
Proof.
  intros H c v Hin. rewrite forallb_forall in H. now apply H.
Qed.

Lemma eqb_false_ne (a b : Py.str) : a <> b -> Py.eqb a b = false.
Proof.
  intros H. unfold Py.eqb. now destruct (list_eq_dec N.eq_dec a b).
Qed.

(** No pattern is found in the file name "q3.pdf". *)
Lemma q3_pdf_matches_nothing :
  forall c ps p,
    In (c, ps) AnalyzeAndTagPdf.DOC_TYPE_PATTERNS -> In p ps ->
    Re.search (db := Py.Latin1) true p
              (Py.lower (db := Py.Latin1) (Py.u "q3.pdf")) = false.
Proof.
  intros c ps p Hin Hp.
  pose proof (table_forall
                (fun kv =>
                   forallb (fun p =>
                              negb (Re.search (db := Py.Latin1) true p
                                      (Py.lower (db := Py.Latin1)
                                                (Py.u "q3.pdf"))))
                           (snd kv))
                AnalyzeAndTagPdf.DOC_TYPE_PATTERNS) as H.
  specialize (H ltac:(vm_compute; reflexivity) c ps Hin). simpl in H.
  rewrite forallb_forall in H. apply negb_true_iff. now apply H.
Qed.

(** With the file name "q3.pdf": the text "Quarterly report of the
    workshop: report and summary" counts 3 for "report" and 1 for
    "workshop", and is a report; the text "Hello" counts nothing, and is a
    document. *)
Lemma classify_by_content_scenarios :
  AnalyzeAndTagPdf.classify_document_type (db := Py.Latin1)
    (Py.u "Quarterly report of the workshop: report and summary")
    (Py.u "q3.pdf") = Py.u "report"
  /\ AnalyzeAndTagPdf.classify_document_type (db := Py.Latin1)
       (Py.u "Hello") (Py.u "q3.pdf") = Py.u "document".
Proof.
  split.
  - eapply (proj1 (classify_by_content_score Py.Latin1
                     (Py.u "Quarterly report of the workshop: report and summary")
                     (Py.u "q3.pdf") q3_pdf_matches_nothing)).
    + do 3 right. left. reflexivity.
    + intros c' ps' Hin Hne.
      pose proof (table_forall
        (fun kv =>
           Py.eqb (fst kv) (Py.u "report")
           || (list_sum
                 (map (fun p =>
                         Re.findall_count (db := Py.Latin1) true p
                           (Py.lower (db := Py.Latin1)
                              (Py.u "Quarterly report of the workshop: report and summary")))
                      (snd kv)) <? 3))
        AnalyzeAndTagPdf.DOC_TYPE_PATTERNS) as H.
      specialize (H ltac:(vm_compute; reflexivity) c' ps' Hin). simpl in H.
      rewrite (eqb_false_ne _ _ Hne) in H. simpl in H.
      apply Nat.ltb_lt in H.
      eapply Nat.lt_le_trans; [exact H|].
      vm_compute. lia.
  - apply (proj2 (classify_by_content_score Py.Latin1
                    (Py.u "Hello") (Py.u "q3.pdf") q3_pdf_matches_nothing)).
    intros c ps Hin.
    pose proof (table_forall
      (fun kv =>
         list_sum
           (map (fun p =>
                   Re.findall_count (db := Py.Latin1) true p
                     (Py.lower (db := Py.Latin1) (Py.u "Hello")))
                (snd kv)) =? 0)
      AnalyzeAndTagPdf.DOC_TYPE_PATTERNS) as H.
    specialize (H ltac:(vm_compute; reflexivity) c ps Hin). simpl in H.
    now apply Nat.eqb_eq in H.
Defined.

(** ** Headings files *)

Section JsonFacts.
Import Py Json.

(** Induction on values, through the lists that nest them. *)
Lemma value_induction (P : value -> Prop) :
  (forall n, P (Int n)) ->
  (forall s, P (Str s)) ->
  (forall items, Forall P items -> P (Arr items)) ->
  (forall members, Forall (fun kv => P (snd kv)) members -> P (Obj members)) ->
  forall v, P v.
Proof.
  intros HInt HStr HArr HObj.
  fix IH 1. intros [n|s|items|members].
  - apply HInt.
  - apply HStr.
  - apply HArr. induction items as [|x items IHitems]; constructor.
    + apply IH.
    + exact IHitems.
  - apply HObj. induction members as [|[k x] members IHmembers]; constructor.
    + apply IH.
    + exact IHmembers.
Qed.

(** *** Strings *)

Lemma hex_value_digit (n : N) :
  (n < 16)%N -> hex_value (hex_digit n) = Some n.
Proof.
  intros Hn. unfold hex_value, hex_digit, in_range.
  destruct (N.ltb_spec n 10).
  - replace ((48 <=? 48 + n) && (48 + n <=? 57))%N with true.
    + f_equal. lia.
    + symmetry. apply andb_true_iff. split; apply N.leb_le; lia.
  - replace ((48 <=? 87 + n) && (87 + n <=? 57))%N with false.
    + replace ((97 <=? 87 + n) && (87 + n <=? 102))%N with true.
      * f_equal. lia.
      * symmetry. apply andb_true_iff. split; apply N.leb_le; lia.
    + symmetry. apply andb_false_iff. right. apply N.leb_gt. lia.
Qed.

Lemma scan_string_unicode_escape (h1 h2 h3 h4 hi : cp) (t : str) :
  hex4 h1 h2 h3 h4 = Some hi ->
  in_range 55296 56319 hi = false ->
  scan_string (92 :: 117 :: h1 :: h2 :: h3 :: h4 :: t)%N
  = push hi (scan_string t).
Proof.
  intros Hhex Hrange. cbn [scan_string].
  change (92 =? 34)%N with false. change (92 =? 92)%N with true.
  change (117 =? 117)%N with true. cbv iota.
  rewrite Hhex, Hrange. reflexivity.
Qed.

Lemma scan_string_escape (c : cp) (t : str) :
  scan_string (escape_char c ++ t) = push c (scan_string t).
Proof.
  unfold escape_char.
  destruct (N.eqb_spec c 34); [subst; reflexivity|].
  destruct (N.eqb_spec c 92); [subst; reflexivity|].
  destruct (N.eqb_spec c 10); [subst; reflexivity|].
  destruct (N.eqb_spec c 13); [subst; reflexivity|].
  destruct (N.eqb_spec c 9); [subst; reflexivity|].
  destruct (N.eqb_spec c 8); [subst; reflexivity|].
  destruct (N.eqb_spec c 12); [subst; reflexivity|].
  destruct (N.ltb_spec c 32) as [Hlow | Hhigh].
  - cbn [app]. apply scan_string_unicode_escape.
    + unfold hex4. change (hex_value 48%N) with (Some 0%N).
      rewrite !hex_value_digit.
      * f_equal. rewrite (N.div_mod c 16) at 3 by lia. lia.
      * apply N.mod_lt. lia.
      * apply N.Div0.div_lt_upper_bound. lia.
    + unfold in_range. apply andb_false_iff. left. apply N.leb_gt. lia.
  - cbn [app scan_string].
    destruct (N.eqb_spec c 34); [contradiction|].
    destruct (N.eqb_spec c 92); [contradiction|].
    destruct (N.ltb_spec c 32); [lia|]. reflexivity.
Qed.

Lemma scan_encode_string (s rest : str) :
  scan_string (flat_map escape_char s ++ 34%N :: rest) = Some (s, rest).
Proof.
  induction s as [|c s IH]; [reflexivity|].
  cbn [flat_map]. rewrite <- app_assoc, scan_string_escape, IH. reflexivity.
Qed.
(** *** Integers *)

Lemma delimited_no_digit (rest : str) :
  delimited rest -> take_digits rest = (Decimal.Nil, rest).
Proof.
  destruct rest as [|c rest]; [reflexivity|].
  intros [-> | ->]; reflexivity.
Qed.

Lemma delimited_no_float (rest : str) :
  delimited rest -> starts_float rest = false.
Proof.
  destruct rest as [|c rest]; [reflexivity|].
  intros [-> | ->]; reflexivity.
Qed.

Lemma take_digits_digits (d : Decimal.uint) (rest : str) :
  delimited rest -> take_digits (digits d ++ rest) = (d, rest).
Proof.
  intros Hrest.
  induction d; cbn [digits app]; [now apply delimited_no_digit| ..];
    cbn [take_digits]; simpl digit_of; rewrite IHd; reflexivity.
Qed.

(** The decimal digits of a positive number do not start with 0. *)
Lemma to_uint_no_leading_zero (p : positive) (d : Decimal.uint) :
  Pos.to_uint p <> Decimal.D0 d.
Proof.
  intros H.
  pose proof (DecimalPos.Unsigned.to_of (Pos.to_uint p)) as Hn.
  rewrite DecimalPos.Unsigned.of_to in Hn.
  change (N.to_uint (N.pos p)) with (Pos.to_uint p) in Hn.
  unfold Decimal.unorm in Hn.
  destruct (Decimal.nzhead (Pos.to_uint p)) eqn:Hz;
    try (rewrite H in Hn; discriminate Hn).
  - apply (DecimalPos.Unsigned.to_uint_nonzero p). exact Hn.
  - exact (DecimalFacts.nzhead_nonzero _ _ Hz).
Qed.

Lemma digits_nonzero_start (p : positive) :
  exists c t, digits (Pos.to_uint p) = c :: t /\ (49 <= c <= 57)%N.
Proof.
  pose proof (to_uint_no_leading_zero p) as Hz.
  pose proof (DecimalPos.Unsigned.to_uint_nonnil p) as Hnil.
  destruct (Pos.to_uint p) as [|d|d|d|d|d|d|d|d|d|d];
    [contradiction | exfalso; now apply (Hz d) | ..];
    cbn [digits]; eexists _, _; (split; [reflexivity | lia]).
Qed.

Lemma scan_int_unsigned (c : cp) (r : str) :
  (c =? 45)%N = false ->
  scan_int (c :: r)
  = let (d, rest) :=
        if (c =? 48)%N then (Decimal.D0 Decimal.Nil, r)
        else take_digits (c :: r) in
    match d with
    | Decimal.Nil => None
    | _ => if starts_float rest then None
           else Some (Z.of_int (Decimal.Pos d), rest)
    end.
Proof. intros H. unfold scan_int. rewrite H. reflexivity. Qed.

Lemma scan_int_signed (c : cp) (r : str) :
  scan_int (45%N :: c :: r)
  = let (d, rest) :=
        if (c =? 48)%N then (Decimal.D0 Decimal.Nil, r)
        else take_digits (c :: r) in
    match d with
    | Decimal.Nil => None
    | _ => if starts_float rest then None
           else Some (Z.of_int (Decimal.Neg d), rest)
    end.
Proof. reflexivity. Qed.

Lemma scan_int_positive (negative : bool) (p : positive) (rest : str) :
  delimited rest ->
  scan_int ((if negative then [45%N] else []) ++ digits (Pos.to_uint p) ++ rest)
  = Some (Z.of_int (if negative then Decimal.Neg (Pos.to_uint p)
                    else Decimal.Pos (Pos.to_uint p)), rest).
Proof.
  intros Hrest.
  pose proof (DecimalPos.Unsigned.to_uint_nonnil p) as Hnil.
  pose proof (take_digits_digits (Pos.to_uint p) rest Hrest) as Htake.
  pose proof (delimited_no_float rest Hrest) as Hfloat.
  destruct (digits_nonzero_start p) as (c & t & Hd & Hc).
  rewrite Hd in *. cbn [app] in Htake.
  assert (H48 : (c =? 48)%N = false) by (apply N.eqb_neq; lia).
  assert (H45 : (c =? 45)%N = false) by (apply N.eqb_neq; lia).
  destruct negative; cbn [app];
    [rewrite scan_int_signed | rewrite (scan_int_unsigned _ _ H45)];
    rewrite H48, Htake, Hfloat;
    destruct (Pos.to_uint p); congruence || reflexivity.
Qed.

Lemma scan_encode_int (n : Z) (rest : str) :
  delimited rest -> scan_int (encode_int n ++ rest) = Some (n, rest).
Proof.
  intros Hrest. unfold encode_int.
  destruct n as [|p|p]; cbn [Z.to_int].
  - pose proof (scan_int_unsigned 48%N rest eq_refl) as H.
    change (48 =? 48)%N with true in H. cbv iota beta in H.
    rewrite (delimited_no_float rest Hrest) in H. exact H.
  - etransitivity; [exact (scan_int_positive false p rest Hrest)|].
    f_equal. f_equal. apply (DecimalZ.of_to (Z.pos p)).
  - etransitivity; [exact (scan_int_positive true p rest Hrest)|].
    f_equal. f_equal. apply (DecimalZ.of_to (Z.neg p)).
Qed.

Lemma digits_start (d : Decimal.uint) :
  d <> Decimal.Nil ->
  exists c t, digits d = c :: t /\ (48 <= c <= 57)%N.
Proof.
  destruct d; [contradiction| ..]; intros _; cbn [digits];
    eexists _, _; (split; [reflexivity | lia]).
Qed.

Lemma encode_int_start (n : Z) :
  exists c t, encode_int n = c :: t /\ number_start c.
Proof.
  unfold encode_int, number_start.
  destruct n as [|p|p]; cbn [Z.to_int].
  - eexists _, _. split; [reflexivity|]. right. lia.
  - destruct (digits_start (Pos.to_uint p)
                (DecimalPos.Unsigned.to_uint_nonnil p)) as (c & t & -> & Hc).
    eexists _, _. split; [reflexivity|]. now right.
  - eexists _, _. split; [reflexivity|]. now left.
Qed.
(** *** White space and the start of a value *)

Lemma value_start_not_ws (c : cp) : value_start c -> is_ws c = false.
Proof.
  unfold value_start, number_start, is_ws.
  intros [-> | [-> | [-> | [-> | Hc]]]]; try reflexivity.
  repeat (apply orb_false_iff; split); apply N.eqb_neq; lia.
Qed.

Lemma skip_ws_start (c : cp) (t : str) :
  value_start c -> skip_ws (c :: t) = c :: t.
Proof.
  intros H. cbn [skip_ws]. now rewrite (value_start_not_ws c H).
Qed.

Lemma skip_ws_spaces (n : nat) (t : str) :
  skip_ws (repeat 32%N n ++ t) = skip_ws t.
Proof. induction n as [|n IH]; [reflexivity | exact IH]. Qed.

Lemma skip_ws_indent (level : nat) (t : str) :
  skip_ws (newline_indent level ++ t) = skip_ws t.
Proof. unfold newline_indent. cbn [app skip_ws]. apply skip_ws_spaces. Qed.

Lemma encode_start (level : nat) (v : value) :
  exists c t, encode level v = c :: t /\ value_start c.
Proof.
  unfold value_start.
  destruct v as [n|s|[|x items]|[|kv members]].
  - destruct (encode_int_start n) as (c & t & H & Hc).
    exists c, t. split; [exact H | right; right; right; exact Hc].
  - eexists _, _. split; [reflexivity | now left].
  - eexists _, _. split; [reflexivity | now right; left].
  - eexists _, _. split; [reflexivity | now right; left].
  - eexists _, _. split; [reflexivity | now right; right; left].
  - eexists _, _. split; [reflexivity | now right; right; left].
Qed.

Lemma encode_length (level : nat) (v : value) : 1 <= length (encode level v).
Proof.
  destruct (encode_start level v) as (c & t & -> & _). simpl. lia.
Qed.

Lemma skip_ws_encode (level : nat) (v : value) (t : str) :
  skip_ws (encode level v ++ t) = encode level v ++ t.
Proof.
  destruct (encode_start level v) as (c & t' & -> & Hc).
  cbn [app]. now apply skip_ws_start.
Qed.

(** *** One step of each decoder *)

Lemma parse_value_number (fuel : nat) (c : cp) (r : str) :
  number_start c ->
  parse_value (S fuel) (c :: r)
  = match scan_int (c :: r) with
    | Some (n, rest) => Some (Int n, rest)
    | None => None
    end.
Proof.
  intros Hc. cbn [parse_value].
  assert (H34 : (c =? 34)%N = false)
    by (apply N.eqb_neq; destruct Hc; lia).
  assert (H91 : (c =? 91)%N = false)
    by (apply N.eqb_neq; destruct Hc; lia).
  assert (H123 : (c =? 123)%N = false)
    by (apply N.eqb_neq; destruct Hc; lia).
  now rewrite H34, H91, H123.
Qed.

Lemma parse_items_step (fuel : nat) (s : str) :
  parse_items (S fuel) s
  = match parse_value fuel s with
    | None => None
    | Some (v, r) =>
      match skip_ws r with
      | [] => None
      | c :: r1 =>
        if (c =? 44)%N then
          match parse_items fuel (skip_ws r1) with
          | Some (vs, rest) => Some (v :: vs, rest)
          | None => None
          end
        else if (c =? 93)%N then Some ([v], r1)
        else None
      end
    end.
Proof. reflexivity. Qed.

Lemma parse_members_step (fuel : nat) (key : str) (e tail : str) :
  parse_members (S fuel) ((encode_string key ++ u ": " ++ e) ++ tail)
  = match parse_value fuel (skip_ws (e ++ tail)) with
    | None => None
    | Some (v, r2) =>
      match skip_ws r2 with
      | [] => None
      | c :: r3 =>
        if (c =? 44)%N then
          match parse_members fuel (skip_ws r3) with
          | Some (kvs, rest) => Some ((key, v) :: kvs, rest)
          | None => None
          end
        else if (c =? 125)%N then Some ([(key, v)], r3)
        else None
      end
    end.
Proof.
  unfold encode_string.
  change (u ": ") with [58%N; 32%N].
  cbn [app]. rewrite <- !app_assoc. cbn [app].
  cbn [parse_members]. change (negb (34 =? 34)%N) with false. cbv iota.
  rewrite scan_encode_string. cbn [skip_ws].
  change (is_ws 58%N) with false. cbv iota.
  change (negb (58 =? 58)%N) with false. cbv iota.
  change (is_ws 32%N) with true. cbv iota. reflexivity.
Qed.
(** *** Lists of elements *)

Lemma join_cons_map {A} (sep a : str) (f : A -> str) (y : A) (ys : list A) :
  join sep (a :: map f (y :: ys)) = a ++ sep ++ join sep (map f (y :: ys)).
Proof. reflexivity. Qed.

Lemma skip_ws_join (level : nat) (sep : str) (y : value) (ys : list value)
      (t : str) :
  skip_ws (join sep (map (encode level) (y :: ys)) ++ t)
  = join sep (map (encode level) (y :: ys)) ++ t.
Proof.
  destruct ys as [|z ys].
  - cbn [map join]. apply skip_ws_encode.
  - cbn [map]. rewrite (join_cons_map sep _ (encode level) z ys).
    rewrite <- app_assoc. apply skip_ws_encode.
Qed.

Lemma parse_items_encode (level : nat) (xs : list value) :
  Forall round_trips xs ->
  forallb well_formed xs = true ->
  xs <> [] ->
  forall fuel rest,
    length (join (item_separator (S level)) (map (encode (S level)) xs))
    < fuel ->
    parse_items fuel
      (join (item_separator (S level)) (map (encode (S level)) xs)
         ++ newline_indent level ++ 93%N :: rest)
    = Some (xs, rest).
Proof.
  induction xs as [|x xs IH]; [congruence|].
  intros HF Hwf _ fuel rest Hlen.
  inversion HF as [|? ? Hx HF']; subst.
  cbn [forallb] in Hwf. apply andb_true_iff in Hwf as [Hwx Hwxs].
  destruct fuel as [|f]; [lia|].
  rewrite parse_items_step.
  destruct xs as [|y xs].
  - cbn [map join] in *.
    rewrite (Hx f (S level) _ Hwx); [ | lia | right; reflexivity].
    rewrite skip_ws_indent. reflexivity.
  - change (map (encode (S level)) (x :: y :: xs))
      with (encode (S level) x :: map (encode (S level)) (y :: xs)) in *.
    rewrite join_cons_map in *.
    rewrite !length_app in Hlen.
    pose proof (encode_length (S level) x) as Hpos.
    rewrite <- !app_assoc. unfold item_separator at 1. cbn [app].
    rewrite (Hx f (S level) _ Hwx); [ | lia | left; reflexivity].
    cbn [skip_ws]. change (is_ws 44%N) with false. cbv iota.
    change (44 =? 44)%N with true. cbv iota.
    rewrite skip_ws_indent, skip_ws_join.
    rewrite IH; [reflexivity | exact HF' | exact Hwxs | discriminate | lia].
Qed.

(** *** Lists of members *)

Lemma skip_ws_members (level : nat) (sep : str) (kv : str * value)
      (kvs : list (str * value)) (t : str) :
  skip_ws (join sep (map (member_text level) (kv :: kvs)) ++ t)
  = join sep (map (member_text level) (kv :: kvs)) ++ t.
Proof.
  assert (H : forall t', skip_ws (member_text level kv ++ t')
                         = member_text level kv ++ t').
  { intros t'. unfold member_text, encode_string. cbn [app].
    apply skip_ws_start. now left. }
  destruct kvs as [|kv' kvs].
  - cbn [map join]. apply H.
  - cbn [map]. rewrite (join_cons_map sep _ (member_text level) kv' kvs).
    rewrite <- app_assoc. apply H.
Qed.

Lemma parse_members_encode (level : nat) (ms : list (str * value)) :
  Forall (fun kv => round_trips (snd kv)) ms ->
  forallb (fun kv => encodable (fst kv) && well_formed (snd kv)) ms = true ->
  ms <> [] ->
  forall fuel rest,
    length (join (item_separator (S level)) (map (member_text (S level)) ms))
    < fuel ->
    parse_members fuel
      (join (item_separator (S level)) (map (member_text (S level)) ms)
         ++ newline_indent level ++ 125%N :: rest)
    = Some (ms, rest).
Proof.
  induction ms as [|[k x] ms IH]; [congruence|].
  intros HF Hwf _ fuel rest Hlen.
  inversion HF as [|? ? Hx HF']; subst. cbn [snd] in Hx.
  cbn [forallb fst snd] in Hwf.
  apply andb_true_iff in Hwf as [Hwx Hwxs].
  apply andb_true_iff in Hwx as [_ Hwx].
  destruct fuel as [|f]; [lia|].
  pose proof (encode_length (S level) x) as Hpos.
  destruct ms as [|kv ms].
  - cbn [map join] in *. unfold member_text at 1 in Hlen.
    unfold member_text at 1. cbn [fst snd] in *.
    rewrite !length_app in Hlen.
    rewrite parse_members_step, skip_ws_encode.
    rewrite (Hx f (S level) _ Hwx); [ | lia | right; reflexivity].
    rewrite skip_ws_indent. reflexivity.
  - change (map (member_text (S level)) ((k, x) :: kv :: ms))
      with (member_text (S level) (k, x)
              :: map (member_text (S level)) (kv :: ms)) in *.
    rewrite join_cons_map in *.
    unfold member_text at 1 in Hlen. unfold member_text at 1.
    cbn [fst snd] in *.
    rewrite !length_app in Hlen.
    rewrite <- (app_assoc (encode_string k ++ u ": " ++ encode (S level) x)).
    rewrite parse_members_step, skip_ws_encode.
    rewrite <- !app_assoc. unfold item_separator at 1. cbn [app].
    rewrite (Hx f (S level) _ Hwx); [ | lia | left; reflexivity].
    cbn [skip_ws]. change (is_ws 44%N) with false. cbv iota.
    change (44 =? 44)%N with true. cbv iota.
    rewrite skip_ws_indent, skip_ws_members.
    rewrite IH; [reflexivity | exact HF' | exact Hwxs | discriminate | lia].
Qed.
(** *** Dictionaries *)

Lemma distinct_before (a b : list str) (k : str) :
  distinct (a ++ k :: b) = true ->
  existsb (fun k' => eqb k' k) a = false.
Proof.
  induction a as [|k0 a IH]; [reflexivity|].
  cbn [app distinct existsb]. intros H.
  apply andb_true_iff in H as [Hk0 Hd].
  apply negb_true_iff in Hk0. rewrite existsb_app in Hk0.
  apply orb_false_iff in Hk0 as [_ Hk0]. cbn [existsb] in Hk0.
  apply orb_false_iff in Hk0 as [Hk0 _].
  rewrite Hk0, (IH Hd). reflexivity.
Qed.

Lemma dict_set_fresh (k : str) (v : value) (d : list (str * value)) :
  existsb (fun k' => eqb k' k) (map fst d) = false ->
  dict_set k v d = d ++ [(k, v)].
Proof.
  induction d as [|[k' v'] d IH]; [reflexivity|].
  cbn [map fst existsb dict_set app]. intros H.
  apply orb_false_iff in H as [Hk Hd].
  rewrite Hk, (IH Hd). reflexivity.
Qed.

Lemma dict_fold_distinct (pairs acc : list (str * value)) :
  distinct (map fst acc ++ map fst pairs) = true ->
  fold_left (fun d kv => dict_set (fst kv) (snd kv) d) pairs acc
  = acc ++ pairs.
Proof.
  revert acc. induction pairs as [|[k v] pairs IH]; intros acc H.
  - cbn [fold_left]. now rewrite List.app_nil_r.
  - cbn [fold_left fst snd]. cbn [map fst] in H.
    rewrite (dict_set_fresh k v acc (distinct_before _ _ _ H)).
    rewrite IH.
    + now rewrite <- app_assoc.
    + rewrite map_app, <- app_assoc. exact H.
Qed.

Lemma dict_of_distinct (pairs : list (str * value)) :
  distinct (map fst pairs) = true -> dict_of pairs = pairs.
Proof. intros H. unfold dict_of. now rewrite dict_fold_distinct. Qed.

(** *** Values *)

Lemma encode_array (level : nat) (x : value) (xs : list value) :
  encode level (Arr (x :: xs))
  = 91%N :: newline_indent (S level)
      ++ join (item_separator (S level)) (map (encode (S level)) (x :: xs))
      ++ newline_indent level ++ [93%N].
Proof. reflexivity. Qed.

Lemma encode_object (level : nat) (kv : str * value)
      (ms : list (str * value)) :
  encode level (Obj (kv :: ms))
  = 123%N :: newline_indent (S level)
      ++ join (item_separator (S level))
              (map (member_text (S level)) (kv :: ms))
      ++ newline_indent level ++ [125%N].
Proof. reflexivity. Qed.

Lemma parse_value_array (fuel : nat) (r : str) :
  parse_value (S fuel) (91%N :: r)
  = match skip_ws r with
    | [] => None
    | c1 :: r1 =>
      if (c1 =? 93)%N then Some (Arr [], r1)
      else
        match parse_items fuel (c1 :: r1) with
        | Some (items, rest) => Some (Arr items, rest)
        | None => None
        end
    end.
Proof. reflexivity. Qed.

Lemma parse_value_object (fuel : nat) (r : str) :
  parse_value (S fuel) (123%N :: r)
  = match skip_ws r with
    | [] => None
    | c1 :: r1 =>
      if (c1 =? 125)%N then Some (Obj [], r1)
      else
        match parse_members fuel (c1 :: r1) with
        | Some (pairs, rest) => Some (Obj (dict_of pairs), rest)
        | None => None
        end
    end.
Proof. reflexivity. Qed.

Lemma value_start_not_closing (c : cp) :
  value_start c -> (c =? 93)%N = false /\ (c =? 125)%N = false.
Proof.
  unfold value_start, number_start.
  intros H. split; apply N.eqb_neq; intuition lia.
Qed.

Lemma items_start (level : nat) (sep : str) (x : value) (xs : list value) :
  exists c t,
    join sep (map (encode level) (x :: xs)) = c :: t /\ value_start c.
Proof.
  destruct (encode_start level x) as (c & t & He & Hc).
  destruct xs as [|y xs].
  - exists c, t. cbn [map join]. auto.
  - exists c, (t ++ sep ++ join sep (map (encode level) (y :: xs))).
    cbn [map]. rewrite (join_cons_map sep _ (encode level) y xs), He.
    auto.
Qed.

Lemma members_start (level : nat) (sep : str) (kv : str * value)
      (ms : list (str * value)) :
  exists t, join sep (map (member_text level) (kv :: ms)) = 34%N :: t.
Proof.
  destruct ms as [|kv' ms].
  - cbn [map join]. unfold member_text, encode_string. cbn [app]. eauto.
  - cbn [map]. rewrite (join_cons_map sep _ (member_text level) kv' ms).
    unfold member_text at 1. unfold encode_string. cbn [app]. eauto.
Qed.

Lemma newline_indent_length (level : nat) : 1 <= length (newline_indent level).
Proof. unfold newline_indent. cbn [length]. lia. Qed.

(** Every value is read back from its encoding. *)
Lemma all_round_trip (v : value) : round_trips v.
Proof.
  induction v as [n|s|items IH|members IH] using value_induction;
    intros fuel level rest Hwf Hlen Hrest.
  - destruct (encode_int_start n) as (c & t & He & Hc).
    cbn [encode] in *. rewrite He in Hlen.
    destruct fuel as [|f]; [cbn [length] in Hlen; lia|].
    pose proof (scan_encode_int n rest Hrest) as Hscan.
    rewrite He in *. cbn [app] in *.
    rewrite (parse_value_number f c _ Hc), Hscan. reflexivity.
  - cbn [encode] in *. unfold encode_string in *. cbn [app length] in *.
    destruct fuel as [|f]; [lia|].
    cbn [parse_value]. change (34 =? 34)%N with true. cbv iota.
    rewrite <- app_assoc. cbn [app].
    rewrite scan_encode_string. reflexivity.
  - destruct items as [|x xs].
    + destruct fuel as [|f]; [vm_compute in Hlen; lia | reflexivity].
    + rewrite encode_array in *. cbn [length] in Hlen.
      rewrite !length_app in Hlen.
      pose proof (newline_indent_length (S level)).
      pose proof (newline_indent_length level).
      destruct fuel as [|f]; [lia|].
      cbn [app]. rewrite <- !app_assoc. cbn [app].
      rewrite parse_value_array, skip_ws_indent, skip_ws_join.
      destruct (items_start (S level) (item_separator (S level)) x xs)
        as (c & t & HJ & Hc).
      pose proof (parse_items_encode level (x :: xs) IH Hwf
                    ltac:(discriminate) f rest ltac:(lia)) as Hitems.
      rewrite HJ in *. cbn [app] in *.
      rewrite (proj1 (value_start_not_closing c Hc)).
      match goal with
      | |- context [parse_items f ?s] =>
        replace (parse_items f s) with (Some (x :: xs, rest))
          by (symmetry; exact Hitems)
      end.
      reflexivity.
  - destruct members as [|kv ms].
    + destruct fuel as [|f]; [vm_compute in Hlen; lia | reflexivity].
    + rewrite encode_object in *. cbn [length] in Hlen.
      rewrite !length_app in Hlen.
      pose proof (newline_indent_length (S level)).
      pose proof (newline_indent_length level).
      destruct fuel as [|f]; [lia|].
      cbn [well_formed] in Hwf. apply andb_true_iff in Hwf as [Hkeys Hwf].
      cbn [app]. rewrite <- !app_assoc. cbn [app].
      rewrite parse_value_object, skip_ws_indent, skip_ws_members.
      destruct (members_start (S level) (item_separator (S level)) kv ms)
        as (t & HJ).
      pose proof (parse_members_encode level (kv :: ms) IH Hwf
                    ltac:(discriminate) f rest ltac:(lia)) as Hmembers.
      rewrite HJ in *. cbn [app] in *.
      change (34 =? 125)%N with false. cbv iota.
      match goal with
      | |- context [parse_members f ?s] =>
        replace (parse_members f s) with (Some (kv :: ms, rest))
          by (symmetry; exact Hmembers)
      end.
      rewrite (dict_of_distinct _ Hkeys). reflexivity.
Qed.
(** *** Text that can be written *)

Lemma hex_digit_clean (n : N) :
  (n < 16)%N -> is_surrogate (hex_digit n) = false.
Proof.
  intros Hn. unfold is_surrogate, in_range, hex_digit.
  apply andb_false_iff. left. apply N.leb_gt.
  destruct (n <? 10)%N; lia.
Qed.

Lemma escape_clean (c : cp) :
  is_surrogate c = false -> existsb is_surrogate (escape_char c) = false.
Proof.
  intros Hc. unfold escape_char.
  repeat match goal with
         | |- context [if (?a =? ?b)%N then _ else _] =>
           destruct (a =? b)%N; [reflexivity|]
         end.
  destruct (N.ltb_spec c 32).
  - cbn [existsb]. rewrite !hex_digit_clean.
    + reflexivity.
    + apply N.mod_lt. lia.
    + apply N.Div0.div_lt_upper_bound. lia.
  - cbn [existsb]. now rewrite Hc.
Qed.

Lemma encode_string_clean (s : str) :
  encodable s = true -> existsb is_surrogate (encode_string s) = false.
Proof.
  unfold encodable, encode_string. intros H. apply negb_true_iff in H.
  cbn [existsb]. rewrite existsb_app. cbn [existsb].
  change (is_surrogate 34%N) with false. cbn [orb].
  rewrite orb_false_r.
  induction s as [|c s IH]; [reflexivity|].
  cbn [existsb flat_map] in *. apply orb_false_iff in H as [Hc Hs].
  now rewrite existsb_app, (escape_clean c Hc), (IH Hs).
Qed.

Lemma digits_clean (d : Decimal.uint) :
  existsb is_surrogate (digits d) = false.
Proof. induction d; cbn [digits existsb]; [reflexivity | exact IHd ..]. Qed.

Lemma encode_int_clean (n : Z) : existsb is_surrogate (encode_int n) = false.
Proof.
  unfold encode_int. destruct (Z.to_int n); cbn [existsb];
    apply digits_clean.
Qed.

Lemma newline_indent_clean (level : nat) :
  existsb is_surrogate (newline_indent level) = false.
Proof.
  unfold newline_indent. cbn [existsb].
  induction (2 * level) as [|n IH]; [reflexivity | exact IH].
Qed.

Lemma join_clean (sep : str) (chunks : list str) :
  existsb is_surrogate sep = false ->
  Forall (fun chunk => existsb is_surrogate chunk = false) chunks ->
  existsb is_surrogate (join sep chunks) = false.
Proof.
  intros Hsep H. induction H as [|chunk chunks Hc _ IH]; [reflexivity|].
  destruct chunks as [|chunk' chunks]; [exact Hc|].
  change (join sep (chunk :: chunk' :: chunks))
    with (chunk ++ sep ++ join sep (chunk' :: chunks)).
  now rewrite !existsb_app, Hc, Hsep, IH.
Qed.

Lemma item_separator_clean (level : nat) :
  existsb is_surrogate (item_separator level) = false.
Proof. unfold item_separator. cbn [existsb]. apply newline_indent_clean. Qed.

Lemma encode_clean (v : value) :
  forall level,
    well_formed v = true -> existsb is_surrogate (encode level v) = false.
Proof.
  induction v as [n|s|items IH|members IH] using value_induction;
    intros level Hwf.
  - apply encode_int_clean.
  - now apply encode_string_clean.
  - destruct items as [|x xs]; [reflexivity|].
    rewrite encode_array. cbn [existsb]. rewrite !existsb_app.
    rewrite !newline_indent_clean. cbn [existsb orb].
    rewrite orb_false_r. apply join_clean; [apply item_separator_clean|].
    apply Forall_map. cbn [well_formed] in Hwf.
    rewrite forallb_forall in Hwf. rewrite Forall_forall in *.
    intros y Hy. apply IH; [exact Hy | now apply Hwf].
  - destruct members as [|kv ms]; [reflexivity|].
    rewrite encode_object. cbn [existsb]. rewrite !existsb_app.
    rewrite !newline_indent_clean. cbn [existsb orb].
    rewrite orb_false_r. apply join_clean; [apply item_separator_clean|].
    apply Forall_map. cbn [well_formed] in Hwf.
    apply andb_true_iff in Hwf as [_ Hwf].
    rewrite forallb_forall in Hwf. rewrite Forall_forall in *.
    intros [k y] Hy. specialize (Hwf _ Hy). specialize (IH _ Hy).
    cbn [fst snd] in *. apply andb_true_iff in Hwf as [Hk Hwy].
    unfold member_text. cbn [fst snd]. rewrite !existsb_app.
    rewrite (encode_string_clean k Hk), (IH (S level) Hwy). reflexivity.
Qed.

(** A well-formed value is written, and read back from the file. *)
Lemma dump_then_load (v : value) :
  well_formed v = true ->
  dump v = Some (dumps v) /\ load (dumps v) = Some v.
Proof.
  intros Hwf. unfold dump, write_text, load, read_text, loads, dumps.
  rewrite (encode_clean v 0 Hwf). split; [reflexivity|].
  pose proof (skip_ws_encode 0 v []) as Hskip.
  pose proof (all_round_trip v (S (length (encode 0 v))) 0 [] Hwf
                ltac:(lia) I) as Hparse.
  rewrite List.app_nil_r in Hskip, Hparse.
  now rewrite Hskip, Hparse.
Qed.
End JsonFacts.

Section HeadingsFileFacts.
Import Py Json AddHeadingTags.

Lemma heading_value_well_formed (h : Heading) :
  well_formed (heading_value h) = encodable (h_text h).
Proof.
  unfold heading_value.
  destruct (h_block_id h); cbn [app well_formed map fst snd forallb];
    repeat match goal with
           | |- context [encodable (u ?s)] =>
             change (encodable (u s)) with true
           | |- context [distinct ?l] => change (distinct l) with true
           end;
    cbn [andb]; now rewrite andb_true_r.
Qed.

Lemma headings_value_well_formed (headings : list Heading) :
  Forall (fun h => existsb is_surrogate (h_text h) = false) headings ->
  well_formed (headings_value headings) = true.
Proof.
  intros H. unfold headings_value. cbn [well_formed].
  apply forallb_forall. intros v Hv.
  apply in_map_iff in Hv as (h & <- & Hh).
  rewrite Forall_forall in H. rewrite heading_value_well_formed.
  unfold encodable. now rewrite (H h Hh).
Qed.

Lemma heading_value_inj (h h' : Heading) :
  heading_value h = heading_value h' -> h = h'.
Proof.
  destruct h as [p t l b], h' as [p' t' l' b'].
  unfold heading_value. cbn [h_page h_text h_level h_block_id].
  destruct b, b'; cbn [app]; intros H; injection H; intros; subst;
    reflexivity || discriminate.
Qed.

Lemma headings_value_inj (headings headings' : list Heading) :
  headings_value headings = headings_value headings' -> headings = headings'.
Proof.
  unfold headings_value. intros H. injection H as H.
  revert headings' H.
  induction headings as [|h hs IH]; intros [|h' hs'] H;
    try discriminate H; [reflexivity|].
  cbn [map] in H.
  pose proof (f_equal (hd (Int 0)) H) as Hh.
  pose proof (f_equal (@tl value) H) as Hhs.
  cbn [hd tl] in Hh, Hhs.
  now rewrite (heading_value_inj _ _ Hh), (IH _ Hhs).
Qed.
End HeadingsFileFacts.

(** C8, as the code has it: a sequence of heading records none of whose
    texts holds a surrogate code point is exported to a file, and loading
    that file gives the same records in the same order. *)
Theorem export_then_load_headings (headings : list AddHeadingTags.Heading) :
  Forall (fun h => existsb Json.is_surrogate (AddHeadingTags.h_text h) = false)
         headings ->
  exists file,
    AddHeadingTags.export_headings (AddHeadingTags.headings_value headings)
    = Some file
    /\ AddHeadingTags.load_manual_headings file
       = Some (AddHeadingTags.headings_value headings)
    /\ forall headings',
        AddHeadingTags.load_manual_headings file
        = Some (AddHeadingTags.headings_value headings') ->
        headings' = headings.
Proof.
  intros H.
  destruct (dump_then_load _ (headings_value_well_formed headings H))
    as [Hdump Hload].
  exists (Json.dumps (AddHeadingTags.headings_value headings)).
  unfold AddHeadingTags.export_headings, AddHeadingTags.load_manual_headings.
  repeat split; [exact Hdump | exact Hload |].
  intros headings' H'. rewrite Hload in H'.
  symmetry. apply headings_value_inj. congruence.
Qed.

(** Two headings, one detected (with its block id) and one written by hand,
    with a quote, a backslash, a line break and non-ASCII letters in their
    texts. *)
Lemma export_then_load_scenario :
  let headings :=
    [ {| AddHeadingTags.h_page := 1;
         AddHeadingTags.h_text := Py.u "1. Översikt • résumé";
         AddHeadingTags.h_level := 2;
         AddHeadingTags.h_block_id := Some 7%Z |};
      {| AddHeadingTags.h_page := 12;
         AddHeadingTags.h_text := [65; 34; 66; 92; 67; 10; 68; 1]%N;
         AddHeadingTags.h_level := (-1)%Z;
         AddHeadingTags.h_block_id := None |} ] in
  exists file,
    AddHeadingTags.export_headings (AddHeadingTags.headings_value headings)
    = Some file
    /\ AddHeadingTags.load_manual_headings file
       = Some (AddHeadingTags.headings_value headings)
    /\ forall headings',
        AddHeadingTags.load_manual_headings file
        = Some (AddHeadingTags.headings_value headings') ->
        headings' = headings.
Proof.
  cbv zeta. apply export_then_load_headings.
  repeat constructor.
Defined.

(** C8, as stated, fails on a heading whose text is the lone surrogate
    U+D800 (which [json.load] reads from the escape \ud800): the export
    raises when the text is written, and there is no file to load. *)
Lemma export_fails_on_surrogate :
  let headings :=
    [ {| AddHeadingTags.h_page := 1;
         AddHeadingTags.h_text := [55296%N];
         AddHeadingTags.h_level := 1;
         AddHeadingTags.h_block_id := None |} ] in
  AddHeadingTags.export_headings (AddHeadingTags.headings_value headings)
  = None
  /\ ~ (exists file,
           AddHeadingTags.export_headings
             (AddHeadingTags.headings_value headings) = Some file
           /\ AddHeadingTags.load_manual_headings file
              = Some (AddHeadingTags.headings_value headings)).
Proof.
  cbv zeta.
  assert (H : AddHeadingTags.export_headings
                (AddHeadingTags.headings_value
                   [ {| AddHeadingTags.h_page := 1;
                        AddHeadingTags.h_text := [55296%N];
                        AddHeadingTags.h_level := 1;
                        AddHeadingTags.h_block_id := None |} ]) = None)
    by (vm_compute; reflexivity).
  split; [exact H|].
  intros (file & Hfile & _). rewrite H in Hfile. discriminate Hfile.
Qed.

(** The same heading is what [load_manual_headings] returns for a file that
    spells the surrogate as an escape (the text below with double quotes
    for the single ones). *)
Lemma load_reads_surrogate_escape :
  AddHeadingTags.load_manual_headings
    (Py.replace (Py.u "[{'page': 1, 'text': '\ud800', 'level': 1}]")
                39%N 34%N)
  = Some (AddHeadingTags.headings_value
            [ {| AddHeadingTags.h_page := 1;
                 AddHeadingTags.h_text := [55296%N];
                 AddHeadingTags.h_level := 1;
                 AddHeadingTags.h_block_id := None |} ]).
Proof. vm_compute. reflexivity. Qed.

(** * Further properties *)

(** ** Text blocks and detected headings *)

Section BlockFacts.
Import Py AddHeadingTags.
Context {db : UnicodeData}.

Lemma lstrip_keeps_last (a : str) (c : cp) :
  cp_isspace c = false -> lstrip (a ++ [c]) = lstrip a ++ [c].
Proof.
  intros Hc. induction a as [|x a IH]; cbn [app lstrip].
  - now rewrite Hc.
  - destruct (cp_isspace x); [exact IH | reflexivity].
Qed.

Lemma lstrip_head (s : str) :
  lstrip s = [] \/ exists c t, lstrip s = c :: t /\ cp_isspace c = false.
Proof.
  induction s as [|x s IH]; cbn [lstrip]; [now left|].
  destruct (cp_isspace x) eqn:Hx; [exact IH|].
  right. eauto.
Qed.

Lemma lstrip_fixed (c : cp) (t : str) :
  cp_isspace c = false -> lstrip (c :: t) = c :: t.
Proof. intros Hc. cbn [lstrip]. now rewrite Hc. Qed.

Lemma rstrip_cons (c : cp) (t : str) :
  cp_isspace c = false -> rstrip (c :: t) = c :: rstrip t.
Proof.
  intros Hc. unfold rstrip. cbn [rev].
  rewrite (lstrip_keeps_last _ _ Hc), rev_app_distr. reflexivity.
Qed.

Lemma rstrip_rstrip (s : str) : rstrip (rstrip s) = rstrip s.
Proof.
  unfold rstrip. rewrite rev_involutive.
  destruct (lstrip_head (rev s)) as [-> | (c & t & -> & Hc)]; [reflexivity|].
  now rewrite (lstrip_fixed _ _ Hc).
Qed.

(** Stripping a stripped string changes nothing. *)
Lemma strip_strip (s : str) : strip (strip s) = strip s.
Proof.
  unfold strip.
  destruct (lstrip_head s) as [-> | (c & t & -> & Hc)]; [reflexivity|].
  rewrite (rstrip_cons _ _ Hc), (lstrip_fixed _ _ Hc).
  rewrite (rstrip_cons _ _ Hc), rstrip_rstrip. reflexivity.
Qed.

Lemma ids_from_S (b : Z) (n : nat) :
  ids_from b (S n) = (b + 1)%Z :: ids_from (b + 1) n.
Proof.
  unfold ids_from. cbn [seq map]. f_equal.
  rewrite <- seq_shift, map_map. apply map_ext. intros i. lia.
Qed.

Lemma ids_from_app (n m : nat) :
  forall b, ids_from b (n + m) = ids_from b n ++ ids_from (b + Z.of_nat n) m.
Proof.
  induction n as [|n IH]; intros b.
  - cbn [Nat.add]. unfold ids_from at 2. cbn [seq map app].
    now replace (b + Z.of_nat 0)%Z with b by lia.
  - cbn [Nat.add]. rewrite !ids_from_S, IH. cbn [app].
    now replace (b + 1 + Z.of_nat n)%Z with (b + Z.of_nat (S n))%Z by lia.
Qed.

(** What the inner loop keeps and how it numbers. *)
Lemma page_blocks_spec (page_num : Z) (lines rest : list str) (b : Z) :
  let r := page_blocks page_num lines rest b in
  snd r = (b + Z.of_nat (length (fst r)))%Z
  /\ map id (fst r) = ids_from b (length (fst r))
  /\ Forall (fun blk =>
               page blk = page_num
               /\ text blk <> []
               /\ strip (text blk) = text blk
               /\ char_count blk = length (text blk)
               /\ word_count blk = length (split (text blk)))
            (fst r).
Proof.
  revert b. induction rest as [|raw rest IH]; intros b; cbn [page_blocks].
  - cbn. repeat split; [lia | constructor].
  - destruct (nonempty (strip raw)) eqn:Hne; [|apply IH].
    specialize (IH (b + 1)%Z).
    destruct (page_blocks page_num lines rest (b + 1)) as [bs b'].
    cbn [fst snd] in *. destruct IH as (Hb' & Hids & Hall).
    repeat split.
    + rewrite Hb'. cbn [length]. lia.
    + cbn [map length id]. rewrite ids_from_S. now f_equal.
    + constructor; [|exact Hall]. cbn.
      repeat split; [|apply strip_strip].
      intros H. rewrite H in Hne. discriminate.
Qed.

Lemma extract_pages_ids (pages : list (option str)) :
  forall page_num b,
    let blocks := extract_pages page_num pages b in
    map id blocks = ids_from b (length blocks).
Proof.
  induction pages as [|pg pages IH]; intros page_num b; cbn [extract_pages].
  - reflexivity.
  - destruct pg as [page_text|]; [|apply IH].
    destruct (negb (nonempty (strip page_text))); [apply IH|].
    pose proof (page_blocks_spec page_num (split_sep page_text 10%N)
                  (split_sep page_text 10%N) b) as (Hb' & Hids & _).
    destruct (page_blocks page_num _ _ b) as [bs b'].
    cbn [fst snd] in *. cbv zeta.
    rewrite map_app, length_app, ids_from_app, Hids, IH, Hb'.
    reflexivity.
Qed.

Lemma extract_pages_invariants (pages : list (option str)) :
  forall page_num b,
    Forall (fun blk =>
              (page_num <= page blk < page_num + Z.of_nat (length pages))%Z
              /\ text blk <> []
              /\ strip (text blk) = text blk
              /\ char_count blk = length (text blk)
              /\ word_count blk = length (split (text blk)))
           (extract_pages page_num pages b).
Proof.
  induction pages as [|pg pages IH]; intros page_num b; cbn [extract_pages].
  - constructor.
  - assert (Hshift : forall b',
               Forall (fun blk =>
                 (page_num <= page blk
                  < page_num + Z.of_nat (length (pg :: pages)))%Z
                 /\ text blk <> []
                 /\ strip (text blk) = text blk
                 /\ char_count blk = length (text blk)
                 /\ word_count blk = length (split (text blk)))
                 (extract_pages (page_num + 1) pages b')).
    { intros b'. eapply Forall_impl; [|apply (IH (page_num + 1)%Z b')].
      cbn [length]. intros blk (Hp & Hrest). split; [lia | exact Hrest]. }
    destruct pg as [page_text|]; [|apply Hshift].
    destruct (negb (nonempty (strip page_text))); [apply Hshift|].
    pose proof (page_blocks_spec page_num (split_sep page_text 10%N)
                  (split_sep page_text 10%N) b) as (_ & _ & Hall).
    destruct (page_blocks page_num _ _ b) as [bs b'].
    cbn [fst snd] in *. apply Forall_app. split; [|apply Hshift].
    eapply Forall_impl; [|exact Hall].
    cbn [length]. intros blk (Hp & Hrest). split; [lia | exact Hrest].
Qed.
End BlockFacts.

(** X1: the blocks are numbered 1, 2, 3, ... in the order they are found,
    across pages, whatever pages are skipped. *)
Theorem text_blocks_numbered
        (db : Py.UnicodeData) (pages : list (option Py.str)) :
  map AddHeadingTags.id (AddHeadingTags.extract_text_with_fonts pages)
  = map Z.of_nat
        (seq 1 (length (AddHeadingTags.extract_text_with_fonts pages))).
Proof.
  unfold AddHeadingTags.extract_text_with_fonts.
  rewrite (extract_pages_ids pages 1%Z 0%Z). reflexivity.
Qed.

(** X2: every block holds a line that is not empty and has no white space
    around it, with its length and word count, on a page between 1 and the
    number of pages. *)
Theorem text_blocks_invariants
        (db : Py.UnicodeData) (pages : list (option Py.str)) :
  Forall (fun blk =>
            (1 <= AddHeadingTags.page blk <= Z.of_nat (length pages))%Z
            /\ AddHeadingTags.text blk <> []
            /\ Py.strip (AddHeadingTags.text blk) = AddHeadingTags.text blk
            /\ AddHeadingTags.char_count blk
               = length (AddHeadingTags.text blk)
            /\ AddHeadingTags.word_count blk
               = length (Py.split (AddHeadingTags.text blk)))
         (AddHeadingTags.extract_text_with_fonts pages).
Proof.
  eapply Forall_impl;
    [|apply (extract_pages_invariants pages 1%Z 0%Z)].
  intros blk (Hp & Hrest). split; [lia | exact Hrest].
Qed.

Section HeadingListFacts.
Import Py AddHeadingTags.
Context {db : UnicodeData}.

(** Whatever holds of every record the inner loop can build holds of every
    block. *)
Lemma blocks_built (Q : TextBlock -> Prop) :
  (forall bid page_num line lines,
      Q {| id := bid; page := page_num; text := line;
           is_heading := detect_heading_heuristic line;
           level := estimate_heading_level line lines;
           char_count := length line;
           word_count := length (split line) |}) ->
  forall pages page_num b, Forall Q (extract_pages page_num pages b).
Proof.
  intros HQ pages.
  induction pages as [|pg pages IH]; intros page_num b; cbn [extract_pages].
  - constructor.
  - destruct pg as [page_text|]; [|apply IH].
    destruct (negb (nonempty (strip page_text))); [apply IH|].
    assert (Hpage : forall rest b0,
               Forall Q (fst (page_blocks page_num
                                (split_sep page_text 10%N) rest b0))).
    { induction rest as [|raw rest IHr]; intros b0; cbn [page_blocks].
      - constructor.
      - destruct (nonempty (strip raw)); [|apply IHr].
        specialize (IHr (b0 + 1)%Z).
        destruct (page_blocks page_num _ rest (b0 + 1)) as [bs b'].
        cbn [fst] in *. constructor; [apply HQ | exact IHr]. }
    specialize (Hpage (split_sep page_text 10%N) b).
    destruct (page_blocks page_num _ _ b) as [bs b'].
    cbn [fst] in Hpage. apply Forall_app. split; [exact Hpage | apply IH].
Qed.

Lemma numbered_nth {A} (f : A -> Z) (l : list A) :
  forall a k x,
    map f l = map Z.of_nat (seq a (length l)) ->
    nth_error l k = Some x ->
    f x = Z.of_nat (a + k).
Proof.
  induction l as [|y l IH]; intros a k x Hmap Hnth.
  - destruct k; discriminate Hnth.
  - cbn [length seq map] in Hmap. injection Hmap as Hy Hl.
    destruct k as [|k]; cbn [nth_error] in Hnth.
    + injection Hnth as <-. now rewrite Nat.add_0_r.
    + rewrite (IH (S a) k x Hl Hnth). f_equal. lia.
Qed.

Lemma sorted_numbers (n : nat) :
  forall a, StronglySorted Z.lt (map Z.of_nat (seq a n)).
Proof.
  induction n as [|n IH]; intros a; cbn [seq map]; constructor.
  - apply IH.
  - apply Forall_forall. intros z Hz.
    apply in_map_iff in Hz as (i & <- & Hi).
    apply in_seq in Hi. lia.
Qed.

Lemma sorted_map_filter {A} (f : A -> Z) (keep : A -> bool) (l : list A) :
  StronglySorted Z.lt (map f l) ->
  StronglySorted Z.lt (map f (filter keep l)).
Proof.
  induction l as [|x l IH]; cbn [map filter]; intros H; [constructor|].
  inversion H as [|? ? Hs Hall]; subst.
  destruct (keep x); [|now apply IH].
  cbn [map]. constructor; [now apply IH|].
  rewrite Forall_forall in *. intros z Hz. apply Hall.
  apply in_map_iff in Hz as (y & <- & Hy).
  apply filter_In in Hy as [Hy _]. now apply in_map.
Qed.

(** An accepted line passed both rejection tests. *)
Lemma accepted_not_rejected (line : str) :
  detect_heading_heuristic line = true ->
  length line <= 100
  /\ endswith line (u ".") = false
  /\ endswith line (u ",") = false.
Proof.
  unfold detect_heading_heuristic.
  destruct (100 <? length line) eqn:Hlen; [discriminate|].
  destruct (endswith line (u ".") || endswith line (u ",")) eqn:Hend;
    [discriminate|].
  intros _. apply Nat.ltb_ge in Hlen. apply orb_false_iff in Hend.
  tauto.
Qed.

Lemma not_endswith (line suffix : str) :
  endswith line suffix = false -> forall pre, line <> pre ++ suffix.
Proof.
  intros H pre ->. rewrite endswith_app in H. discriminate.
Qed.
End HeadingListFacts.

(** X3: every detected heading carries the id of the block it comes from,
    which is flagged as a heading and has the same page, text and level;
    the block is found back by that id; the ids of the headings increase
    strictly, and there are no more headings than blocks. *)
Theorem headings_refer_to_blocks
        (db : Py.UnicodeData) (pages : list (option Py.str)) :
  let blocks := AddHeadingTags.extract_text_with_fonts pages in
  let headings := AddHeadingTags.identify_headings blocks in
  Forall (fun h =>
            exists b,
              AddHeadingTags.h_block_id h = Some (AddHeadingTags.id b)
              /\ nth_error blocks (Z.to_nat (AddHeadingTags.id b) - 1)
                 = Some b
              /\ AddHeadingTags.is_heading b = true
              /\ AddHeadingTags.h_page h = AddHeadingTags.page b
              /\ AddHeadingTags.h_text h = AddHeadingTags.text b
              /\ AddHeadingTags.h_level h = AddHeadingTags.level b)
         headings
  /\ (exists ids,
         map AddHeadingTags.h_block_id headings = map Some ids
         /\ StronglySorted Z.lt ids)
  /\ length headings <= length blocks.
Proof.
  intros blocks headings.
  pose proof (extract_pages_ids pages 1%Z 0%Z) as Hnum.
  change (map AddHeadingTags.id blocks
          = map Z.of_nat (seq 1 (length blocks))) in Hnum.
  split; [|split].
  - apply Forall_forall. intros h Hh. unfold headings in Hh.
    unfold AddHeadingTags.identify_headings in Hh.
    apply in_map_iff in Hh as (b & <- & Hb).
    apply filter_In in Hb as [Hb Hflag].
    exists b. cbn. repeat split; try assumption.
    apply In_nth_error in Hb as [k Hk].
    rewrite (numbered_nth AddHeadingTags.id blocks 1 k b Hnum Hk).
    replace (Z.to_nat (Z.of_nat (1 + k)) - 1) with k by lia. exact Hk.
  - exists (map AddHeadingTags.id
                (filter AddHeadingTags.is_heading blocks)).
    split.
    + unfold headings, AddHeadingTags.identify_headings.
      rewrite !map_map. reflexivity.
    + apply sorted_map_filter. rewrite Hnum. apply sorted_numbers.
  - unfold headings, AddHeadingTags.identify_headings.
    rewrite length_map. apply filter_length_le.
Qed.

(** X4: every detected heading has between 1 and 100 characters, no white
    space around it, and does not end in "." or ",". *)
Theorem detected_headings_shape
        (db : Py.UnicodeData) (pages : list (option Py.str)) :
  Forall (fun h =>
            1 <= length (AddHeadingTags.h_text h) <= 100
            /\ Py.strip (AddHeadingTags.h_text h) = AddHeadingTags.h_text h
            /\ (forall pre, AddHeadingTags.h_text h <> pre ++ Py.u ".")
            /\ (forall pre, AddHeadingTags.h_text h <> pre ++ Py.u ","))
         (AddHeadingTags.identify_headings
            (AddHeadingTags.extract_text_with_fonts pages)).
Proof.
  pose proof (extract_pages_invariants pages 1%Z 0%Z) as Hinv.
  fold (AddHeadingTags.extract_text_with_fonts pages) in Hinv.
  pose proof (blocks_built
                (fun blk => AddHeadingTags.is_heading blk
                            = AddHeadingTags.detect_heading_heuristic
                                (AddHeadingTags.text blk))
                ltac:(reflexivity) pages 1%Z 0%Z) as Hflag.
  fold (AddHeadingTags.extract_text_with_fonts pages) in Hflag.
  rewrite Forall_forall in *. intros h Hh.
  unfold AddHeadingTags.identify_headings in Hh.
  apply in_map_iff in Hh as (b & <- & Hb).
  apply filter_In in Hb as [Hb Hyes]. cbn.
  destruct (Hinv b Hb) as (_ & Hne & Hstrip & _).
  rewrite (Hflag b Hb) in Hyes.
  destruct (accepted_not_rejected _ Hyes) as (Hlen & Hdot & Hcomma).
  repeat split; try assumption.
  - destruct (AddHeadingTags.text b); [contradiction | cbn; lia].
  - now apply not_endswith.
  - now apply not_endswith.
Qed.

(** X5: where ".", ")" and ":" are not digits, level 3 is only ever given
    by length: a line estimated at level 3 has 20 to 39 characters, and the
    numbering branch gives it to no line. *)
Theorem level_3_only_by_length
        (db : Py.UnicodeData) (line : Py.str) (all_lines : list Py.str) :
  Py.cp_isdigit 46%N = false ->
  Py.cp_isdigit 41%N = false ->
  Py.cp_isdigit 58%N = false ->
  AddHeadingTags.estimate_heading_level line all_lines = 3%Z ->
  20 <= length line < 40.
Proof.
  intros Hdot Hparen Hcolon.
  unfold AddHeadingTags.estimate_heading_level.
  destruct ((length line <? 30) && Py.isupper line); [discriminate|].
  destruct (Py.nonempty line && Py.isdigit (Py.slice line 0 1)
            && negb (Py.isdigit (Py.slice line 1 2))) eqn:H2;
    [discriminate|].
  destruct (Py.nonempty line && (2 <? length line)
            && Py.isdigit (Py.slice line 0 1)
            && Py.contains (Py.slice line 1 2) (Py.u ".):")) eqn:H3.
  - exfalso.
    apply andb_true_iff in H3 as [H3 Hin].
    apply andb_true_iff in H3 as [H3 Hd0].
    apply andb_true_iff in H3 as [Hne Hlen].
    rewrite Hne, Hd0 in H2. cbn [andb] in H2.
    apply negb_false_iff in H2.
    destruct line as [|c0 [|c1 rest]]; try discriminate.
    change (Py.slice (c0 :: c1 :: rest) 1 2) with [c1] in *.
    unfold Py.isdigit in H2. cbn [Py.nonempty forallb andb] in H2.
    rewrite andb_true_r in H2.
    change (Py.u ".):") with [46%N; 41%N; 58%N] in Hin.
    cbn [Py.contains Py.startswith] in Hin.
    rewrite !andb_true_r, !orb_false_r in Hin.
    apply orb_true_iff in Hin as [Hin | Hin];
      [|apply orb_true_iff in Hin as [Hin | Hin]];
      apply N.eqb_eq in Hin; subst c1; congruence.
  - destruct (length line <? 20) eqn:H20; [discriminate|].
    destruct (length line <? 40) eqn:H40; [|discriminate].
    intros _. apply Nat.ltb_ge in H20. apply Nat.ltb_lt in H40. lia.
Qed.

(** The line "A heading of medium length" has 26 characters and level 3. *)
Lemma level_3_scenario :
  20 <= length (Py.u "A heading of medium length") < 40.
Proof.
  apply (level_3_only_by_length Py.Latin1
           (Py.u "A heading of medium length") []);
    vm_compute; reflexivity.
Defined.

Section HeadingTagFacts.
Import Py AddHeadingTags.

Lemma heading_tag_of_level (h : Heading) (l : Z) :
  h_level h = l -> heading_tag h = u "/H" ++ Json.encode_int (Z.min l 6).
Proof. intros <-. reflexivity. Qed.
End HeadingTagFacts.

(** X6: the tag of a heading element is one of /H1 ... /H6 exactly when
    the level is at least 1: levels above 6 become /H6, and a level of 0 or
    below gives a name outside the six. *)
Theorem heading_tag_standard (h : AddHeadingTags.Heading) :
  In (AddHeadingTags.heading_tag h) AddHeadingTags.standard_tags
  <-> (1 <= AddHeadingTags.h_level h)%Z.
Proof.
  split.
  - intros Hin.
    destruct (AddHeadingTags.h_level h) as [|p|p] eqn:Hl; [|lia|].
    + rewrite (heading_tag_of_level h 0%Z Hl) in Hin.
      vm_compute in Hin. intuition discriminate.
    + exfalso.
      rewrite (heading_tag_of_level h (Z.neg p) Hl) in Hin.
      change (Z.min (Z.neg p) 6) with (Z.neg p) in Hin.
      change (Py.u "/H" ++ Json.encode_int (Z.neg p))
        with (47%N :: 72%N :: 45%N :: Json.digits (Pos.to_uint p)) in Hin.
      unfold AddHeadingTags.standard_tags in Hin. cbn [map In] in Hin.
      repeat match goal with
             | H : _ \/ _ |- _ => destruct H as [H | H]
             end; try contradiction; vm_compute in Hin; discriminate Hin.
  - intros Hl.
    assert (Hmin : (Z.min (AddHeadingTags.h_level h) 6 = 1
                    \/ Z.min (AddHeadingTags.h_level h) 6 = 2
                    \/ Z.min (AddHeadingTags.h_level h) 6 = 3
                    \/ Z.min (AddHeadingTags.h_level h) 6 = 4
                    \/ Z.min (AddHeadingTags.h_level h) 6 = 5
                    \/ Z.min (AddHeadingTags.h_level h) 6 = 6)%Z) by lia.
    unfold AddHeadingTags.heading_tag.
    destruct Hmin as [-> | [-> | [-> | [-> | [-> | ->]]]]];
      vm_compute; tauto.
Qed.

(** X7: the element of every automatically detected heading is tagged /H1,
    /H2, /H3 or /H4 and has the heading's text as its title. *)
Theorem detected_heading_elements
        (db : Py.UnicodeData) (pages : list (option Py.str)) :
  Forall (fun h =>
            In (Pdf.elem_S (AddHeadingTags.heading_elem h))
               (map (fun tag => Some (Py.u tag))
                    ["/H1"; "/H2"; "/H3"; "/H4"]%string)
            /\ Pdf.elem_T (AddHeadingTags.heading_elem h)
               = Some (AddHeadingTags.h_text h))
         (AddHeadingTags.identify_headings
            (AddHeadingTags.extract_text_with_fonts pages)).
Proof.
  pose proof (detected_headings_level
                (fun l => In (Some (Py.u "/H" ++ Json.encode_int (Z.min l 6)))
                             (map (fun tag => Some (Py.u tag))
                                  ["/H1"; "/H2"; "/H3"; "/H4"]%string)))
    as H.
  eapply Forall_impl; [|apply H].
  - intros h Hh. split; [exact Hh | reflexivity].
  - intros line all_lines.
    pose proof (estimate_heading_level_cases line all_lines) as Hc.
    cbv zeta in Hc.
    destruct Hc as [-> | [-> | [-> | ->]]]; vm_compute; tauto.
Qed.

(** ** Structure trees *)

Section TreeFacts.
Import Py AddHeadingTags AddAltTextToImages CompleteAccessibilityWithHeadings.

Lemma append_children {A} (make : A -> Pdf.StructElem) (xs : list A) :
  forall d,
    Pdf.children
      (fold_left (fun d x => Pdf.append_child d (make x)) xs d)
    = Pdf.children d ++ map make xs.
Proof.
  induction xs as [|x xs IH]; intros d; cbn [fold_left map].
  - now rewrite List.app_nil_r.
  - rewrite IH. destruct d as [s t a [kids|]]; cbn;
      now rewrite <- ?app_assoc.
Qed.




Lemma append_sets_children {A} (make : A -> Pdf.StructElem) (xs : list A) :
  forall d,
    xs <> [] \/ Pdf.elem_K d <> None ->
    Pdf.elem_K (fold_left (fun d x => Pdf.append_child d (make x)) xs d)
    = Some (Pdf.children d ++ map make xs).
Proof.
  induction xs as [|x xs IH]; intros d H; cbn [fold_left map].
  - destruct H as [H | H]; [contradiction|].
    rewrite List.app_nil_r. unfold Pdf.children.
    now destruct (Pdf.elem_K d).
  - rewrite IH.
    + destruct d as [s t a [kids|]]; cbn; now rewrite <- ?app_assoc.
    + right. now destruct d.
Qed.

Lemma heading_elems_counted (headings : list Heading) :
  length (filter is_heading_elem (map heading_elem headings))
  = length headings.
Proof.
  induction headings as [|h hs IH]; [reflexivity|].
  cbn [map filter]. unfold is_heading_elem at 1. cbn [heading_elem Pdf.elem_S].
  unfold heading_tag. rewrite startswith_app. cbn [length]. now rewrite IH.
Qed.


End TreeFacts.

(** X8: when [add_heading_structure_tree] saves a document, the first
    element under the root keeps its children and receives one element per
    heading after them, in order; the other elements under the root are
    kept; the count of heading elements grows by the number of headings,
    and the verification step reports it whenever there is a heading. *)
Theorem add_headings_appends
        (pdf pdf' : Pdf.Document) (headings : list AddHeadingTags.Heading)
        (metadata : option AddHeadingTags.Metadata) :
  AddHeadingTags.add_heading_structure_tree pdf headings metadata
  = Some pdf' ->
  Pdf.document_children pdf'
  = Pdf.document_children pdf ++ map AddHeadingTags.heading_elem headings
  /\ (forall kids,
         Pdf.StructTreeRoot pdf = Some (Some kids) ->
         exists doc,
           Pdf.StructTreeRoot pdf' = Some (Some (doc :: tl kids)))
  /\ length (filter AddHeadingTags.is_heading_elem
                    (Pdf.document_children pdf'))
     = length (filter AddHeadingTags.is_heading_elem
                      (Pdf.document_children pdf))
       + length headings
  /\ (headings <> [] ->
      AddHeadingTags.verify_heading_elements pdf'
      = Some (length (filter AddHeadingTags.is_heading_elem
                             (Pdf.document_children pdf))
              + length headings)).
Proof.
  unfold AddHeadingTags.add_heading_structure_tree.
  intros H.
  assert (Hchildren :
            Pdf.document_children pdf'
            = Pdf.document_children pdf
                ++ map AddHeadingTags.heading_elem headings
            /\ (headings <> [] ->
                exists doc rest,
                  Pdf.StructTreeRoot pdf' = Some (Some (doc :: rest))
                  /\ Pdf.elem_K doc
                     = Some (Pdf.document_children pdf
                               ++ map AddHeadingTags.heading_elem headings))
            /\ (forall kids,
                   Pdf.StructTreeRoot pdf = Some (Some kids) ->
                   exists doc,
                     Pdf.StructTreeRoot pdf' = Some (Some (doc :: tl kids)))).
  { unfold Pdf.document_children.
    destruct (Pdf.StructTreeRoot pdf) as [[[|first rest]|]|] eqn:Hroot;
      try discriminate H; injection H as <-; cbn [Pdf.StructTreeRoot];
      rewrite append_children; (split; [reflexivity|]); split;
      try (intros Hne; eexists _, _; split; [reflexivity|];
           now apply append_sets_children; left);
      intros kids [= <-]; eauto; discriminate. }
  destruct Hchildren as (Hch & Hdoc & Hsib).
  split; [exact Hch|]. split; [exact Hsib|].
  assert (Hcount :
            length (filter AddHeadingTags.is_heading_elem
                           (Pdf.document_children pdf'))
            = length (filter AddHeadingTags.is_heading_elem
                             (Pdf.document_children pdf))
              + length headings).
  { rewrite Hch, filter_app, length_app, heading_elems_counted.
    reflexivity. }
  split; [exact Hcount|].
  intros Hne. destruct (Hdoc Hne) as (doc & rest & Hroot' & HK).
  unfold AddHeadingTags.verify_heading_elements.
  rewrite Hroot', HK. f_equal.
  rewrite filter_app, length_app, heading_elems_counted. reflexivity.
Qed.

(** A document that already has a Document element with one paragraph,
    and a second element under the root, receives two headings. *)
Lemma add_headings_scenario :
  let paragraph := Pdf.Elem (Some (Py.u "/P")) None None (Some []) in
  let part := Pdf.Elem (Some (Py.u "/Part")) None None None in
  let heading text level :=
    {| AddHeadingTags.h_page := 1; AddHeadingTags.h_text := Py.u text;
       AddHeadingTags.h_level := level;
       AddHeadingTags.h_block_id := None |} in
  let headings :=
    [heading "Overview"%string 1%Z; heading "Details"%string 9%Z] in
  let document kids :=
    {| Pdf.StructTreeRoot :=
         Some (Some [Pdf.Elem (Some (Py.u "/Document")) None None (Some kids);
                     part]);
       Pdf.MarkInfo := Some {| Pdf.Marked := Some true;
                               Pdf.mark_others := [] |};
       Pdf.ViewerPreferences :=
         Some {| Pdf.DisplayDocTitle := Some true;
                 Pdf.viewer_others := [] |};
       Pdf.Lang := Some (Py.u "sv");
       Pdf.Title := None;
       Pdf.Author := None |} in
  let pdf := document [paragraph] in
  let pdf' :=
    document [paragraph;
              Pdf.Elem (Some (Py.u "/H1")) (Some (Py.u "Overview")) None
                       (Some []);
              Pdf.Elem (Some (Py.u "/H6")) (Some (Py.u "Details")) None
                       (Some [])] in
  Pdf.document_children pdf'
  = Pdf.document_children pdf ++ map AddHeadingTags.heading_elem headings
  /\ (forall kids,
         Pdf.StructTreeRoot pdf = Some (Some kids) ->
         exists doc,
           Pdf.StructTreeRoot pdf' = Some (Some (doc :: tl kids)))
  /\ length (filter AddHeadingTags.is_heading_elem
                    (Pdf.document_children pdf'))
     = length (filter AddHeadingTags.is_heading_elem
                      (Pdf.document_children pdf))
       + length headings
  /\ (headings <> [] ->
      AddHeadingTags.verify_heading_elements pdf'
      = Some (length (filter AddHeadingTags.is_heading_elem
                             (Pdf.document_children pdf))
              + length headings)).
Proof.
  cbv zeta.
  apply (add_headings_appends _ _ _
           (Some {| AddHeadingTags.m_title := None;
                    AddHeadingTags.m_author := Some [];
                    AddHeadingTags.m_language := Some (Py.u "sv") |})).
  vm_compute. reflexivity.
Defined.


(** X10: [add_alt_text_from_file] keeps the images, their order, ordinals
    and pages; every image ends with a text, never without one; and the
    images that then count as having an alternative text are exactly those
    whose ordinal, written in decimal, has a non-empty text in the file,
    whatever text they had before. *)
Theorem alt_text_file_applied
        (images : list AddAltTextToImages.Image)
        (alt_texts : list (Py.str * Py.str)) :
  let images' := AddAltTextToImages.add_alt_text_from_file images alt_texts in
  let in_file img :=
    match AddAltTextToImages.lookup
            alt_texts (Json.encode_int (AddAltTextToImages.img_id img)) with
    | Some text => Py.nonempty text
    | None => false
    end in
  map AddAltTextToImages.img_id images'
  = map AddAltTextToImages.img_id images
  /\ map AddAltTextToImages.img_page images'
     = map AddAltTextToImages.img_page images
  /\ Forall (fun img => AddAltTextToImages.alt_text img <> None) images'
  /\ map AddAltTextToImages.img_id
         (filter CompleteAccessibilityWithHeadings.has_alt_text images')
     = map AddAltTextToImages.img_id (filter in_file images).
Proof.
  intros images' in_file. unfold images'.
  unfold AddAltTextToImages.add_alt_text_from_file.
  repeat split.
  - rewrite map_map. reflexivity.
  - rewrite map_map. reflexivity.
  - apply Forall_map, Forall_forall. intros img _. discriminate.
  - induction images as [|img imgs IH]; [reflexivity|].
    cbn [map filter].
    unfold CompleteAccessibilityWithHeadings.has_alt_text at 1.
    cbn [AddAltTextToImages.alt_text]. unfold in_file at 1.
    destruct (AddAltTextToImages.lookup alt_texts _) as [text|];
      [destruct (Py.nonempty text)|]; cbn [Py.nonempty map];
      now rewrite IH.
Qed.

(** ** Document type and tags *)

Section ClassifyMoreFacts.
Import Py AnalyzeAndTagPdf.
Context {db : UnicodeData}.

Lemma filename_type_member (table : list (str * list Re.pattern))
      (filename_lower c : str) :
  filename_type table filename_lower = Some c -> In c (map fst table).
Proof.
  induction table as [|[c' ps] table IH]; cbn [filename_type map fst];
    [discriminate|].
  destruct (existsb _ ps); [intros [= ->]; now left | right; auto].
Qed.

Lemma max_from_member (rest : list (str * nat)) :
  forall best, In (max_from best rest) (map fst (best :: rest)).
Proof.
  induction rest as [|kv rest IH]; intros best; cbn [max_from].
  - now left.
  - destruct (snd best <? snd kv).
    + right. apply IH.
    + destruct (IH best) as [H | H]; [now left | now right; right].
Qed.

Lemma content_scores_keys (table : list (str * list Re.pattern))
      (text_lower c : str) :
  In c (map fst (content_scores table text_lower)) -> In c (map fst table).
Proof.
  intros H. apply in_map_iff in H as ([c' n] & <- & Hin).
  apply content_scores_member in Hin as (ps & Hps & _).
  apply in_map_iff. exists (c', ps). auto.
Qed.

Lemma filename_type_first (before after : list (str * list Re.pattern))
      (c : str) (ps : list Re.pattern) (p : Re.pattern)
      (filename_lower : str) :
  (forall c' ps' p',
      In (c', ps') before -> In p' ps' ->
      Re.search true p' filename_lower = false) ->
  In p ps -> Re.search true p filename_lower = true ->
  filename_type (before ++ (c, ps) :: after) filename_lower = Some c.
Proof.
  intros Hbefore Hp Hmatch.
  induction before as [|[c' ps'] before IH]; cbn [app filename_type].
  - assert (He : existsb (fun p => Re.search true p filename_lower) ps = true).
    { apply existsb_exists. eauto. }
    now rewrite He.
  - assert (He : existsb (fun p => Re.search true p filename_lower) ps'
                 = false).
    { destruct (existsb _ ps') eqn:He; [|reflexivity].
      apply existsb_exists in He as (p' & Hp' & Hs).
      rewrite (Hbefore c' ps' p') in Hs;
        [discriminate | now left | exact Hp']. }
    rewrite He. apply IH. intros c2 ps2 p2 Hin Hp2.
    apply (Hbefore c2 ps2 p2); [now right | exact Hp2].
Qed.

Lemma content_scores_app (a b : list (str * list Re.pattern))
      (text_lower : str) :
  content_scores (a ++ b) text_lower
  = content_scores a text_lower ++ content_scores b text_lower.
Proof.
  induction a as [|[c ps] a IH]; cbn [app content_scores]; [reflexivity|].
  destruct (0 <? score_of ps text_lower); cbn [app]; now rewrite IH.
Qed.

(** [max] keeps the running maximum against scores that do not exceed
    it. *)
Lemma max_from_keeps (rest : list (str * nat)) :
  forall best,
    Forall (fun kv => snd kv <= snd best) rest ->
    max_from best rest = fst best.
Proof.
  induction rest as [|kv rest IH]; intros best H; cbn [max_from];
    [reflexivity|].
  inversion H as [|? ? Hkv Hrest]; subst.
  apply Nat.ltb_ge in Hkv. rewrite Hkv. now apply IH.
Qed.

(** The first of the highest scores wins. *)
Lemma max_from_first (c : str) (n : nat) (l1 l2 : list (str * nat)) :
  Forall (fun kv => snd kv < n) l1 ->
  Forall (fun kv => snd kv <= n) l2 ->
  match l1 ++ (c, n) :: l2 with
  | [] => False
  | best :: rest => max_from best rest = c
  end.
Proof.
  intros H1 H2. destruct l1 as [|best l1]; cbn [app].
  - now apply (max_from_keeps l2 (c, n)).
  - inversion H1 as [|? ? Hbest Hl1]; subst. clear H1.
    revert best Hbest.
    induction l1 as [|kv l1 IH]; intros best Hbest; cbn [app max_from].
    + apply Nat.ltb_lt in Hbest. cbn [snd]. rewrite Hbest.
      now apply (max_from_keeps l2 (c, n)).
    + inversion Hl1 as [|? ? Hkv Hl1']; subst.
      destruct (snd best <? snd kv); now apply IH.
Qed.
(** The result is a key of the table or the default. *)
Lemma classify_document_type_keys (text filename : str) :
  classify_document_type text filename = u "document"
  \/ In (classify_document_type text filename) (map fst DOC_TYPE_PATTERNS).
Proof.
  unfold classify_document_type.
  destruct (filename_type _ _) as [c|] eqn:Hf.
  - right. eapply filename_type_member; eauto.
  - destruct (content_scores _ _) as [|best rest] eqn:Hs; [now left|].
    right. apply (content_scores_keys _ (lower text)).
    rewrite Hs. apply max_from_member.
Qed.
End ClassifyMoreFacts.

(** X11: the document type is always one of the eight categories of the
    table or "document". *)
Theorem classify_closed_set (db : Py.UnicodeData) (text filename : Py.str) :
  In (AnalyzeAndTagPdf.classify_document_type text filename)
     (map Py.u ["lecture"; "instructions"; "workshop"; "report"; "form";
                "presentation"; "article"; "brochure"; "document"]%string).
Proof.
  destruct (classify_document_type_keys text filename) as [-> | H].
  - cbn [map In]. tauto.
  - change (map fst AnalyzeAndTagPdf.DOC_TYPE_PATTERNS)
      with (map Py.u ["lecture"; "instructions"; "workshop"; "report";
                      "form"; "presentation"; "article"; "brochure"]%string)
      in H.
    cbn [map In] in *. tauto.
Qed.

(** X12: a pattern found in the file name decides: the result is the first
    category of the table with such a pattern, whatever the text says. *)
Theorem filename_match_decides
        (db : Py.UnicodeData) (text filename : Py.str)
        (before after : list (Py.str * list Re.pattern))
        (c : Py.str) (ps : list Re.pattern) (p : Re.pattern) :
  AnalyzeAndTagPdf.DOC_TYPE_PATTERNS = before ++ (c, ps) :: after ->
  (forall c' ps' p',
      In (c', ps') before -> In p' ps' ->
      Re.search true p' (Py.lower filename) = false) ->
  In p ps ->
  Re.search true p (Py.lower filename) = true ->
  AnalyzeAndTagPdf.classify_document_type text filename = c.
Proof.
  intros Htable Hbefore Hp Hmatch.
  unfold AnalyzeAndTagPdf.classify_document_type.
  rewrite Htable.
  now rewrite (filename_type_first before after c ps p _ Hbefore Hp Hmatch).
Qed.

(** The file "Workshop report.pdf" holding a text about lectures: the name
    matches "workshop" and "report", no pattern of the two categories
    before them, and the document is a workshop. *)
Lemma filename_match_scenario :
  AnalyzeAndTagPdf.classify_document_type (db := Py.Latin1)
    (Py.u "Lecture 1. Lecture 2. Lecture 3.") (Py.u "Workshop report.pdf")
  = Py.u "workshop".
Proof.
  apply (filename_match_decides Py.Latin1
           (Py.u "Lecture 1. Lecture 2. Lecture 3.")
           (Py.u "Workshop report.pdf")
           (firstn 2 AnalyzeAndTagPdf.DOC_TYPE_PATTERNS)
           (skipn 3 AnalyzeAndTagPdf.DOC_TYPE_PATTERNS)
           (Py.u "workshop")
           (snd (nth 2 AnalyzeAndTagPdf.DOC_TYPE_PATTERNS ([], [])))
           (Re.compile "\bworkshop\b")).
  - reflexivity.
  - intros c' ps' p' Hin Hp'.
    pose proof (table_forall
                  (fun kv =>
                     forallb (fun p =>
                                negb (Re.search (db := Py.Latin1) true p
                                        (Py.lower (db := Py.Latin1)
                                           (Py.u "Workshop report.pdf"))))
                             (snd kv))
                  (firstn 2 AnalyzeAndTagPdf.DOC_TYPE_PATTERNS)) as H.
    specialize (H ltac:(vm_compute; reflexivity) c' ps' Hin). simpl in H.
    rewrite forallb_forall in H. apply negb_true_iff. now apply H.
  - left. reflexivity.
  - vm_compute. reflexivity.
Defined.

(** X13: without a match in the file name, the result is the first
    category, in table order, among those with the highest positive count:
    every category before it counts less, none after it counts more. *)
Theorem first_top_score_wins
        (db : Py.UnicodeData) (text filename : Py.str)
        (before after : list (Py.str * list Re.pattern))
        (c : Py.str) (ps : list Re.pattern) :
  AnalyzeAndTagPdf.DOC_TYPE_PATTERNS = before ++ (c, ps) :: after ->
  (forall c' ps' p',
      In (c', ps') AnalyzeAndTagPdf.DOC_TYPE_PATTERNS -> In p' ps' ->
      Re.search true p' (Py.lower filename) = false) ->
  let count ps :=
    list_sum (map (fun p => Re.findall_count true p (Py.lower text)) ps) in
  0 < count ps ->
  (forall c' ps', In (c', ps') before -> count ps' < count ps) ->
  (forall c' ps', In (c', ps') after -> count ps' <= count ps) ->
  AnalyzeAndTagPdf.classify_document_type text filename = c.
Proof.
  intros Htable Hname count Hpos Hbefore Hafter.
  unfold AnalyzeAndTagPdf.classify_document_type.
  rewrite (filename_type_none _ _ Hname).
  assert (Hcount : forall ps',
             AnalyzeAndTagPdf.score_of ps' (Py.lower text) = count ps').
  { intros ps'. apply score_of_sum. }
  rewrite Htable, content_scores_app. cbn [AnalyzeAndTagPdf.content_scores].
  rewrite Hcount. apply Nat.ltb_lt in Hpos as Hpos'. rewrite Hpos'.
  assert (H1 : Forall (fun kv => snd kv < count ps)
                      (AnalyzeAndTagPdf.content_scores before (Py.lower text))).
  { apply Forall_forall. intros [c' n'] Hin.
    apply content_scores_member in Hin as (ps' & Hps' & ->).
    cbn [snd]. rewrite Hcount. now apply (Hbefore c' ps'). }
  assert (H2 : Forall (fun kv => snd kv <= count ps)
                      (AnalyzeAndTagPdf.content_scores after (Py.lower text))).
  { apply Forall_forall. intros [c' n'] Hin.
    apply content_scores_member in Hin as (ps' & Hps' & ->).
    cbn [snd]. rewrite Hcount. now apply (Hafter c' ps'). }
  pose proof (max_from_first c (count ps) _ _ H1 H2) as Hmax.
  destruct (AnalyzeAndTagPdf.content_scores before (Py.lower text)
            ++ (c, count ps)
               :: AnalyzeAndTagPdf.content_scores after (Py.lower text));
    [contradiction | exact Hmax].
Qed.

(** With the file name "q3.pdf", the text "See the manual and the report"
    counts 1 for "instructions" and 1 for "report", nothing for "lecture":
    the document is of the type that comes first in the table,
    "instructions". *)
Lemma first_top_score_scenario :
  AnalyzeAndTagPdf.classify_document_type (db := Py.Latin1)
    (Py.u "See the manual and the report") (Py.u "q3.pdf")
  = Py.u "instructions".
Proof.
  apply (first_top_score_wins Py.Latin1
           (Py.u "See the manual and the report") (Py.u "q3.pdf")
           (firstn 1 AnalyzeAndTagPdf.DOC_TYPE_PATTERNS)
           (skipn 2 AnalyzeAndTagPdf.DOC_TYPE_PATTERNS)
           (Py.u "instructions")
           (snd (nth 1 AnalyzeAndTagPdf.DOC_TYPE_PATTERNS ([], [])))).
  - reflexivity.
  - exact q3_pdf_matches_nothing.
  - vm_compute. lia.
  - intros c' ps' Hin.
    pose proof (table_forall
      (fun kv =>
         list_sum
           (map (fun p =>
                   Re.findall_count (db := Py.Latin1) true p
                     (Py.lower (db := Py.Latin1)
                        (Py.u "See the manual and the report")))
                (snd kv)) <? 1)
      (firstn 1 AnalyzeAndTagPdf.DOC_TYPE_PATTERNS)) as H.
    specialize (H ltac:(vm_compute; reflexivity) c' ps' Hin). simpl in H.
    apply Nat.ltb_lt in H.
    eapply Nat.lt_le_trans; [exact H|]. vm_compute. lia.
  - intros c' ps' Hin.
    pose proof (table_forall
      (fun kv =>
         list_sum
           (map (fun p =>
                   Re.findall_count (db := Py.Latin1) true p
                     (Py.lower (db := Py.Latin1)
                        (Py.u "See the manual and the report")))
                (snd kv)) <=? 1)
      (skipn 2 AnalyzeAndTagPdf.DOC_TYPE_PATTERNS)) as H.
    specialize (H ltac:(vm_compute; reflexivity) c' ps' Hin). simpl in H.
    apply Nat.leb_le in H.
    eapply Nat.le_trans; [exact H|]. vm_compute. lia.
Defined.

Section TagFacts.
Import Py AnalyzeAndTagPdf.
Context {db : UnicodeData}.

(** Optional tags, each with its switch: those switched on are among the
    names; when the names are distinct none comes twice, and a name is
    there exactly when its switch is on. *)
Lemma switched_on_incl (opts : list (bool * str)) (x : str) :
  In x (map snd (filter fst opts)) -> In x (map snd opts).
Proof.
  intros H. apply in_map_iff in H as (a & <- & Ha).
  apply filter_In in Ha as [Ha _]. now apply in_map.
Qed.

Lemma switched_on_distinct (opts : list (bool * str)) :
  NoDup (map snd opts) -> NoDup (map snd (filter fst opts)).
Proof.
  induction opts as [|[on name] opts IH]; cbn [map filter fst snd];
    intros H; [constructor|].
  inversion H as [|? ? Hnotin Hnd]; subst.
  destruct on; cbn [map snd]; [|now apply IH].
  constructor; [|now apply IH].
  intros Hin. apply Hnotin. now apply switched_on_incl.
Qed.

Lemma switched_on_iff (opts : list (bool * str)) (on : bool) (x : str) :
  NoDup (map snd opts) -> In (on, x) opts ->
  (In x (map snd (filter fst opts)) <-> on = true).
Proof.
  induction opts as [|[on' name] opts IH]; cbn [map filter fst snd In];
    intros Hnd Hin; [contradiction|].
  inversion Hnd as [|? ? Hnotin Hnd']; subst.
  destruct Hin as [[= -> ->] | Hin].
  - destruct on; cbn [map snd In].
    + split; [reflexivity | now left].
    + split; [|discriminate]. intros H. exfalso. apply Hnotin.
      now apply switched_on_incl.
  - assert (Hne : name <> x).
    { intros ->. apply Hnotin. apply in_map_iff. now exists (on, x). }
    specialize (IH Hnd' Hin).
    destruct on'; cbn [map snd In]; [|exact IH].
    split; [intros [H | H]; [contradiction | now apply IH]|].
    intros H. right. now apply IH.
Qed.

(** Five optional tags and the two of the word count, of which at most one
    is switched on. *)
Lemma switched_on_count (o1 o2 o3 o4 o5 : bool * str) (few many : bool)
      (x6 x7 : str) :
  length (map snd (filter fst
            [o1; o2; o3; o4; o5; (few, x6); (negb few && many, x7)])) <= 6.
Proof.
  destruct o1 as [[] ?], o2 as [[] ?], o3 as [[] ?], o4 as [[] ?],
           o5 as [[] ?], few, many; cbn; lia.
Qed.

Lemma tags_of_switches (d f x1 x2 x3 x4 x5 x6 x7 : str)
      (b1 b2 b3 b4 b5 few many : bool) :
  [d] ++ [f]
    ++ (if b1 then [x1] else []) ++ (if b2 then [x2] else [])
    ++ (if b3 then [x3] else []) ++ (if b4 then [x4] else [])
    ++ (if b5 then [x5] else [])
    ++ (if few then [x6] else if many then [x7] else [])
  = d :: f
      :: map snd (filter fst
           [(b1, x1); (b2, x2); (b3, x3); (b4, x4); (b5, x5);
            (few, x6); (negb few && many, x7)]).
Proof. destruct b1, b2, b3, b4, b5, few, many; reflexivity. Qed.

(** The tag list: the document type, the format, then the optional tags
    that are switched on, in a fixed order. *)
Lemma generate_content_tags_optional (text doc_type : str) (is_slides : bool) :
  generate_content_tags text doc_type is_slides
  = doc_type
      :: (if is_slides then u "slides" else u "text-document")
      :: map snd
           (filter fst
              [ (Re.search false
                   (Re.compile "\b(diagram|figure|chart|graph|image)\b")
                   (lower text), u "visual-content");
                (Re.search false (Re.compile "\b(table|column|row)\b")
                   (lower text), u "tabular-data");
                (Re.search false
                   (Re.compile "\b(code|programming|function|class|variable)\b")
                   (lower text), u "technical-content");
                (Re.search false
                   (Re.compile "\b(equation|formula|theorem|proof)\b")
                   (lower text), u "mathematical-content");
                (Re.search false
                   (Re.compile "\b(reference|citation|bibliography)\b")
                   (lower text), u "academic");
                (length (split text) <? 500, u "brief");
                (negb (length (split text) <? 500)
                 && (5000 <? length (split text)), u "comprehensive") ]).
Proof.
  unfold generate_content_tags, tag_if. cbv zeta.
  apply tags_of_switches.
Qed.
End TagFacts.

Ltac distinct_names :=
  cbn [map In app]; intros;
  repeat match goal with
         | H : _ \/ _ |- _ => destruct H
         | H : False |- _ => contradiction
         end;
  subst;
  match goal with
  | H : Py.u _ = Py.u _ |- _ => vm_compute in H; discriminate
  end.

(** X14: the tags of an analysis are between two and eight, none of them
    twice; "brief" is among them exactly when the text has fewer than 500
    words, "comprehensive" exactly when it has more than 5000. *)
Theorem analysis_tags_shape
        (db : Py.UnicodeData) (ld : AnalyzeAndTagPdf.LangDetect)
        (name stem text : Py.str) (n_pages : nat) (is_slides : bool)
        (reader : AnalyzeAndTagPdf.PdfReader) :
  let tag_list :=
    AnalyzeAndTagPdf.tags
      (AnalyzeAndTagPdf.analyze_pdf name stem (text, n_pages, is_slides)
                                    reader) in
  NoDup tag_list
  /\ 2 <= length tag_list <= 8
  /\ (In (Py.u "brief") tag_list <-> length (Py.split text) < 500)
  /\ (In (Py.u "comprehensive") tag_list <-> 5000 < length (Py.split text)).
Proof.
  unfold AnalyzeAndTagPdf.analyze_pdf.
  destruct (AnalyzeAndTagPdf.detect_language text) as [primary probs].
  cbn [AnalyzeAndTagPdf.tags]. cbv zeta.
  rewrite generate_content_tags_optional.
  pose proof (classify_document_type_keys text name) as Hd.
  set (d := AnalyzeAndTagPdf.classify_document_type text name) in *.
  set (f := if is_slides then Py.u "slides" else Py.u "text-document").
  set (few := length (Py.split text) <? 500).
  set (many := 5000 <? length (Py.split text)).
  match goal with |- context [filter fst ?l] => set (opts := l) end.
  set (types := map Py.u ["lecture"; "instructions"; "workshop"; "report";
                          "form"; "presentation"; "article"; "brochure";
                          "document"]%string).
  set (formats := map Py.u ["slides"; "text-document"]%string).
  assert (Hnames : map snd opts
                   = map Py.u ["visual-content"; "tabular-data";
                               "technical-content"; "mathematical-content";
                               "academic"; "brief"; "comprehensive"]%string)
    by reflexivity.
  assert (Hdistinct : NoDup (map snd opts)).
  { rewrite Hnames. vm_compute.
    repeat (constructor; [simpl; intuition discriminate|]). constructor. }
  assert (Hd' : In d types).
  { destruct Hd as [-> | Hd]; [cbn [types map In]; tauto|].
    change (map fst AnalyzeAndTagPdf.DOC_TYPE_PATTERNS)
      with (map Py.u ["lecture"; "instructions"; "workshop"; "report";
                      "form"; "presentation"; "article"; "brochure"]%string)
      in Hd.
    cbn [types map In] in *. tauto. }
  assert (Hf : In f formats).
  { unfold f, formats. destruct is_slides; cbn [map In]; tauto. }
  assert (Htf : forall x, In x types -> In x formats -> False).
  { unfold types, formats. distinct_names. }
  assert (Hto : forall x, In x types -> In x (map snd opts) -> False).
  { rewrite Hnames. unfold types. distinct_names. }
  assert (Hfo : forall x, In x formats -> In x (map snd opts) -> False).
  { rewrite Hnames. unfold formats. distinct_names. }
  assert (Hbrief : In (Py.u "brief") (map snd (filter fst opts))
                   <-> few = true).
  { apply (switched_on_iff opts few (Py.u "brief") Hdistinct).
    unfold opts. do 5 right. left. reflexivity. }
  assert (Hcomp : In (Py.u "comprehensive") (map snd (filter fst opts))
                  <-> negb few && many = true).
  { apply (switched_on_iff opts (negb few && many) (Py.u "comprehensive")
             Hdistinct).
    unfold opts. do 6 right. left. reflexivity. }
  assert (Hlen : length (map snd (filter fst opts)) <= 6).
  { unfold opts. apply switched_on_count. }
  assert (Hother : forall x,
             In x (map snd opts) ->
             In x (d :: f :: map snd (filter fst opts)) ->
             In x (map snd (filter fst opts))).
  { intros x Hx [H | [H | H]]; [exfalso | exfalso | exact H].
    - apply (Hto d Hd'). now rewrite H.
    - apply (Hfo f Hf). now rewrite H. }
  assert (Hb : In (Py.u "brief") (map snd opts)).
  { rewrite Hnames. do 5 right. left. reflexivity. }
  assert (Hc : In (Py.u "comprehensive") (map snd opts)).
  { rewrite Hnames. do 6 right. left. reflexivity. }
  split; [|split; [|split]].
  - constructor; [|constructor].
    + intros [H | H]; [apply (Htf d Hd'); now rewrite <- H|].
      apply (Hto d Hd'). now apply switched_on_incl.
    + intros H. apply (Hfo f Hf). now apply switched_on_incl.
    + now apply switched_on_distinct.
  - cbn [length]. lia.
  - split.
    + intros H. apply Nat.ltb_lt. apply Hbrief. exact (Hother _ Hb H).
    + intros H. right; right. apply Hbrief. now apply Nat.ltb_lt.
  - split.
    + intros H. apply (Hother _ Hc), Hcomp, andb_true_iff in H.
      apply Nat.ltb_lt. exact (proj2 H).
    + intros H. right; right. apply Hcomp, andb_true_iff. split.
      * apply negb_true_iff, Nat.ltb_ge. lia.
      * now apply Nat.ltb_lt.
Qed.

(** ** Language *)

(** X15: only the text without the white space around it counts for the
    length test: with fewer than 10 characters left the result is English
    and the detector is not consulted; with 10 or more, the answers of the
    detector, asked about the text as it is, are returned unchanged. *)
Theorem detect_language_stripped_length
        (db : Py.UnicodeData) (ld : AnalyzeAndTagPdf.LangDetect)
        (text : Py.str) :
  (length (Py.strip text) < 10 ->
   AnalyzeAndTagPdf.detect_language text
   = (Py.u "en", [(Py.u "en", 1%float)]))
  /\ (10 <= length (Py.strip text) ->
      forall primary lang_probs,
        AnalyzeAndTagPdf.detect text = Some primary ->
        AnalyzeAndTagPdf.detect_langs text = Some lang_probs ->
        AnalyzeAndTagPdf.detect_language text = (primary, lang_probs)).
Proof.
  unfold AnalyzeAndTagPdf.detect_language. split.
  - intros H. apply Nat.ltb_lt in H. rewrite H, orb_true_r. reflexivity.
  - intros H primary lang_probs Hp Hl.
    assert (Hne : Py.nonempty text = true).
    { destruct text; [cbn in H; lia | reflexivity]. }
    apply Nat.ltb_ge in H. rewrite Hne, H, Hp, Hl. reflexivity.
Qed.

(** A detector that answers Swedish to everything: a page of 14 characters
    with only "Hej." on it is English all the same; "Det här är en text"
    is what the detector says. *)
Lemma detect_language_stripped_scenarios :
  let swedish :=
    {| AnalyzeAndTagPdf.detect := fun _ => Some (Py.u "sv");
       AnalyzeAndTagPdf.detect_langs :=
         fun _ => Some [(Py.u "sv", 1%float)] |} in
  AnalyzeAndTagPdf.detect_language (db := Py.Latin1) (ld := swedish)
    (Py.replace (Py.u "   Hej.     ||") 124%N 10%N)
  = (Py.u "en", [(Py.u "en", 1%float)])
  /\ AnalyzeAndTagPdf.detect_language (db := Py.Latin1) (ld := swedish)
       (Py.u "Det här är en text")
     = (Py.u "sv", [(Py.u "sv", 1%float)]).
Proof.
  intros swedish. split.
  - apply (proj1 (detect_language_stripped_length Py.Latin1 swedish
                    (Py.replace (Py.u "   Hej.     ||") 124%N 10%N))).
    vm_compute. lia.
  - apply (proj2 (detect_language_stripped_length Py.Latin1 swedish
                    (Py.u "Det här är en text"))).
    + vm_compute. lia.
    + reflexivity.
    + reflexivity.
Defined.

(** ** From pages to a headings file *)

Section LineFacts.
Import Py AddHeadingTags.
Context {db : UnicodeData}.

Lemma lstrip_nil (s : str) : lstrip s = [] <-> forallb cp_isspace s = true.
Proof.
  induction s as [|c s IH]; cbn [lstrip forallb]; [tauto|].
  destruct (cp_isspace c); cbn [andb]; [exact IH|].
  split; discriminate.
Qed.

(** A string strips to nothing exactly when it is all white space. *)
Lemma strip_nil (s : str) : strip s = [] <-> forallb cp_isspace s = true.
Proof.
  split.
  - unfold strip.
    destruct (lstrip_head s) as [H | (c & t & H & Hc)].
    + intros _. now apply lstrip_nil.
    + rewrite H, (rstrip_cons _ _ Hc). discriminate.
  - intros H. apply lstrip_nil in H. unfold strip. now rewrite H.
Qed.

Lemma lstrip_incl (s : str) (c : cp) : In c (lstrip s) -> In c s.
Proof.
  induction s as [|c' s IH]; cbn [lstrip]; [tauto|].
  destruct (cp_isspace c'); [right; now apply IH | tauto].
Qed.

(** Stripping adds no character. *)
Lemma strip_incl (s : str) (c : cp) : In c (strip s) -> In c s.
Proof.
  unfold strip, rstrip. intros H.
  apply in_rev, lstrip_incl in H. apply in_rev in H.
  now apply lstrip_incl.
Qed.

(** The fields of a split hold characters of the string only. *)
Lemma split_on_incl (sep : cp) (s : str) :
  forall cur field c,
    In field (split_on sep cur s) -> In c field -> In c (rev cur ++ s).
Proof.
  induction s as [|c' s IH]; intros cur field c; cbn [split_on].
  - intros [<- | []] Hc. now rewrite List.app_nil_r.
  - destruct (c' =? sep)%N.
    + intros [<- | Hin] Hc.
      * apply in_or_app. now left.
      * apply in_or_app. right. right.
        exact (IH [] field c Hin Hc).
    + intros Hin Hc. specialize (IH (c' :: cur) field c Hin Hc).
      cbn [rev] in IH. now rewrite <- app_assoc in IH.
Qed.

Lemma split_sep_incl (s field : str) (sep c : cp) :
  In field (split_sep s sep) -> In c field -> In c s.
Proof. intros Hf Hc. exact (split_on_incl sep s [] field c Hf Hc). Qed.

(** A page of white space only has no line that is not blank. *)
Lemma blank_page_lines (page_text : str) :
  nonempty (strip page_text) = false ->
  filter nonempty (map strip (split_sep page_text 10%N)) = [].
Proof.
  intros H.
  assert (Hall : forallb cp_isspace page_text = true).
  { apply strip_nil. now destruct (strip page_text). }
  rewrite forallb_forall in Hall.
  assert (Hlines : forall line,
             In line (split_sep page_text 10%N) -> strip line = []).
  { intros line Hline. apply strip_nil, forallb_forall.
    intros c Hc. apply Hall. eapply split_sep_incl; eauto. }
  induction (split_sep page_text 10%N) as [|line lines IH];
    cbn [map filter]; [reflexivity|].
  rewrite (Hlines line (or_introl eq_refl)). cbn [nonempty].
  apply IH. intros l Hl. apply Hlines. now right.
Qed.

(** The inner loop keeps the lines that are not blank, stripped. *)
Lemma page_blocks_lines (page_num : Z) (lines rest : list str) :
  forall b,
    map (fun blk => (page blk, text blk))
        (fst (page_blocks page_num lines rest b))
    = map (pair page_num) (filter nonempty (map strip rest)).
Proof.
  induction rest as [|raw rest IH]; intros b;
    cbn [page_blocks map filter]; [reflexivity|].
  destruct (nonempty (strip raw)); [|apply IH].
  specialize (IH (b + 1)%Z).
  destruct (page_blocks page_num lines rest (b + 1)) as [bs b'].
  cbn [fst map page text] in *. now rewrite IH.
Qed.

Lemma extract_pages_lines (pages : list (option str)) :
  forall k b,
    map (fun blk => (page blk, text blk))
        (extract_pages (Z.of_nat k) pages b)
    = flat_map
        (fun numbered =>
           match snd numbered with
           | Some page_text =>
             map (pair (Z.of_nat (fst numbered)))
                 (filter nonempty (map strip (split_sep page_text 10%N)))
           | None => []
           end)
        (combine (seq k (length pages)) pages).
Proof.
  induction pages as [|pg pages IH]; intros k b;
    cbn [extract_pages length seq combine flat_map fst snd];
    [reflexivity|].
  replace (Z.of_nat k + 1)%Z with (Z.of_nat (S k)) by lia.
  destruct pg as [page_text|]; [|apply IH].
  destruct (nonempty (strip page_text)) eqn:Hne; cbn [negb].
  - pose proof (page_blocks_lines (Z.of_nat k) (split_sep page_text 10%N)
                  (split_sep page_text 10%N) b) as Hpage.
    destruct (page_blocks (Z.of_nat k) _ _ b) as [bs b'].
    cbn [fst] in Hpage. now rewrite map_app, Hpage, IH.
  - rewrite (blank_page_lines _ Hne). cbn [map app]. apply IH.
Qed.

(** The text of a block is a stripped line of a page that was read. *)
Lemma block_text_origin (pages : list (option str)) (blk : TextBlock) :
  In blk (extract_text_with_fonts pages) ->
  exists page_text raw,
    In (Some page_text) pages
    /\ In raw (split_sep page_text 10%N)
    /\ text blk = strip raw.
Proof.
  intros Hin.
  apply (in_map (fun blk => (page blk, text blk))) in Hin.
  unfold extract_text_with_fonts in Hin.
  change 1%Z with (Z.of_nat 1) in Hin.
  rewrite extract_pages_lines in Hin.
  apply in_flat_map in Hin as ([i pg] & Hpg & Hin).
  apply in_combine_r in Hpg. cbn [fst snd] in Hin.
  destruct pg as [page_text|]; [|destruct Hin].
  apply in_map_iff in Hin as (line & [= _ Hline] & Hin).
  apply filter_In in Hin as [Hin _].
  apply in_map_iff in Hin as (raw & Hraw & Hin).
  exists page_text, raw. repeat split; [exact Hpg | exact Hin |].
  congruence.
Qed.

(** No surrogate on the pages, none in the detected headings. *)
Lemma detected_headings_clean (pages : list (option str)) :
  Forall (fun pg =>
            forall page_text,
              pg = Some page_text ->
              existsb Json.is_surrogate page_text = false) pages ->
  Forall (fun h => existsb Json.is_surrogate (h_text h) = false)
         (identify_headings (extract_text_with_fonts pages)).
Proof.
  intros Hpages. rewrite Forall_forall in Hpages.
  apply Forall_forall. intros h Hh.
  unfold identify_headings in Hh.
  apply in_map_iff in Hh as (blk & <- & Hblk). cbn [h_text].
  apply filter_In in Hblk as [Hblk _].
  destruct (block_text_origin pages blk Hblk)
    as (page_text & raw & Hpage & Hraw & Htext).
  destruct (existsb Json.is_surrogate (text blk)) eqn:He; [|reflexivity].
  apply existsb_exists in He as (c & Hc & Hs).
  rewrite Htext in Hc. apply strip_incl in Hc.
  pose proof (split_sep_incl _ _ _ _ Hraw Hc) as Hc'.
  rewrite <- (Hpages (Some page_text) Hpage page_text eq_refl).
  symmetry. apply existsb_exists. eauto.
Qed.
End LineFacts.

(** X16: the blocks are the lines of the pages that could be read, in
    order, each with the number of its page and without the white space
    around it; a blank line gives no block, and no other line is left
    out. *)
Theorem text_blocks_are_the_lines
        (db : Py.UnicodeData) (pages : list (option Py.str)) :
  map (fun blk => (AddHeadingTags.page blk, AddHeadingTags.text blk))
      (AddHeadingTags.extract_text_with_fonts pages)
  = flat_map
      (fun numbered =>
         match snd numbered with
         | Some page_text =>
           map (pair (Z.of_nat (fst numbered)))
               (filter Py.nonempty
                       (map Py.strip (Py.split_sep page_text 10%N)))
         | None => []
         end)
      (combine (seq 1 (length pages)) pages).
Proof.
  unfold AddHeadingTags.extract_text_with_fonts.
  change 1%Z with (Z.of_nat 1). apply extract_pages_lines.
Qed.

(** X17: when no page holds a surrogate code point, the headings detected
    on the pages are exported to a file, and loading that file gives the
    same records, block ids included. *)
Theorem detected_headings_export
        (db : Py.UnicodeData) (pages : list (option Py.str)) :
  Forall (fun pg =>
            forall page_text,
              pg = Some page_text ->
              existsb Json.is_surrogate page_text = false) pages ->
  let headings :=
    AddHeadingTags.identify_headings
      (AddHeadingTags.extract_text_with_fonts pages) in
  exists file,
    AddHeadingTags.export_headings (AddHeadingTags.headings_value headings)
    = Some file
    /\ AddHeadingTags.load_manual_headings file
       = Some (AddHeadingTags.headings_value headings).
Proof.
  intros Hpages headings.
  pose proof (detected_headings_clean pages Hpages) as Hclean.
  destruct (dump_then_load _ (headings_value_well_formed headings Hclean))
    as [Hdump Hload].
  exists (Json.dumps (AddHeadingTags.headings_value headings)).
  unfold AddHeadingTags.export_headings, AddHeadingTags.load_manual_headings.
  split; [exact Hdump | exact Hload].
Qed.

(** Three pages: a title and two lines, a page that could not be read, a
    page of spaces. *)
Lemma detected_headings_export_scenario :
  let pages :=
    [ Some (Py.replace (Py.u "ÖVERSIKT|This page has a sentence.|1. Bakgrund")
                       124%N 10%N);
      None;
      Some (Py.u "   ") ] in
  let headings :=
    AddHeadingTags.identify_headings
      (AddHeadingTags.extract_text_with_fonts (db := Py.Latin1) pages) in
  exists file,
    AddHeadingTags.export_headings (AddHeadingTags.headings_value headings)
    = Some file
    /\ AddHeadingTags.load_manual_headings file
       = Some (AddHeadingTags.headings_value headings).
Proof.
  intros pages.
  apply (detected_headings_export Py.Latin1 pages).
  repeat constructor; intros page_text [= <-]; reflexivity.
Defined.

(** ** Figures *)

Section FigureFacts.
Import Py AddAltTextToImages.


(** Without a text to add, the element is left as it is. *)
Lemma add_figures_none (images : list Image) :
  texts_present images = [] ->
  forall d, fold_left add_figure images d = d.
Proof.
  induction images as [|img images IH]; intros H d; cbn [fold_left];
    [reflexivity|].
  cbn [texts_present flat_map] in H. fold (texts_present images) in H.
  apply app_eq_nil in H as [Himg H].
  rewrite (IH H). unfold add_figure.
  destruct (alt_text img) as [text|]; [|reflexivity].
  destruct (nonempty text); [discriminate | reflexivity].
Qed.


Section AutoFacts.
Context {db : UnicodeData}.
Variable available : bool.
Variable api : list Byte.byte -> option str.

End AutoFacts.
End FigureFacts.





(** ** Running the heading script on its own output *)


